(** * COT Smart Money Monitor: the signal-detection core

    A shallow embedding of [calculate_net_positions] and [detect_signals]
    of [cot_monitor.py], with the Python builtins they call ([float],
    [min], [max], [round], slicing and indexing) modelled next to them.

    Python floats are IEEE 754 binary64 values; they are modelled by the
    Standard Library's [spec_float] at precision 53 and maximal exponent
    1024.  Python exceptions are modelled by an error monad. *)

From Stdlib Require Import ZArith Bool Lia Ascii String.
From Stdlib Require Import Floats.SpecFloat.
From stdpp Require Import base option list strings gmap.

Open Scope Z_scope.

(** ** Python exceptions *)

Inductive exn : Type :=
  | KeyError
  | ValueError
  | TypeError
  | OverflowError
  | IndexError.

Inductive result (A : Type) : Type :=
  | Ok (a : A)
  | Raise (e : exn).
Arguments Ok {A} a.
Arguments Raise {A} e.

#[global] Instance result_ret : MRet result := @Ok.
#[global] Instance result_bind : MBind result := λ A B f m,
  match m with
  | Ok a => f a
  | Raise e => Raise e
  end.

(** ** Floats *)

Abbreviation float := spec_float.

Definition prec : Z := 53.
Definition emax : Z := 1024.

Definition float_sub : float → float → float := SFsub prec emax.
Definition float_div : float → float → float := SFdiv prec emax.

(** [float(z)] for a Python int: nearest binary64, ties to even. *)
Definition float_of_Z (z : Z) : float := binary_normalize prec emax z 0 false.

(** [a < b], [a > b] and [a == b] on floats; each is false on a NaN. *)
Definition float_lt (a b : float) : bool := SFltb a b.
Definition float_gt (a b : float) : bool := SFltb b a.
Definition float_eq (a b : float) : bool := SFeqb a b.
Definition float_le (a b : float) : bool := SFleb a b.

Definition is_nan (x : float) : bool :=
  match x with
  | S754_nan => true
  | _ => false
  end.

(** ** Python values held by the dictionaries *)

Inductive pyval : Type :=
  | PyNone
  | PyBool (b : bool)
  | PyInt (z : Z)
  | PyFloat (f : float)
  | PyStr (s : string)
  | PyContainer.

(** ** Builtins *)

Definition len {A} (l : list A) : Z := Z.of_nat (length l).

(** Bound of a slice: a negative bound counts from the end, and every
    bound is clamped to [0 .. n]. *)
Definition slice_bound (n i : Z) : Z :=
  if i <? 0 then Z.max (i + n) 0 else Z.min i n.

(** [l[start:stop]], [None] standing for an omitted bound. *)
Definition py_slice {A} (l : list A) (start stop : option Z) : list A :=
  let n := len l in
  let lo := from_option (slice_bound n) 0 start in
  let hi := from_option (slice_bound n) n stop in
  take (Z.to_nat (hi - lo)) (drop (Z.to_nat lo) l).

(** [l[i]]: a negative index counts from the end; out of range raises. *)
Definition py_index {A} (l : list A) (i : Z) : result A :=
  let j := if i <? 0 then i + len l else i in
  if j <? 0 then Raise IndexError
  else match l !! Z.to_nat j with
       | Some x => Ok x
       | None => Raise IndexError
       end.

(** [min(l)]: the first item is kept until a later item is smaller. *)
Definition py_min (l : list float) : result float :=
  match l with
  | [] => Raise ValueError
  | x :: rest =>
      Ok (foldl (λ minitem item, if float_lt item minitem then item else minitem) x rest)
  end.

(** [max(l)]: the first item is kept until a later item is greater. *)
Definition py_max (l : list float) : result float :=
  match l with
  | [] => Raise ValueError
  | x :: rest =>
      Ok (foldl (λ maxitem item, if float_gt item maxitem then item else maxitem) x rest)
  end.

(** Quotient of [a] by [d] rounded to the nearest integer, ties to even
    (for [0 <= a] and [0 < d]). *)
Definition div_half_even (a d : Z) : Z :=
  let q := a / d in
  match 2 * (a mod d) ?= d with
  | Lt => q
  | Gt => q + 1
  | Eq => if Z.even q then q else q + 1
  end.

(** [round(x, 2)]: the exact value of [x] is rounded to two decimals, ties
    to even, and the decimal is converted back to the nearest float.
    Infinities and NaN round to themselves; a float with a nonnegative
    exponent is an integer and rounds to itself. *)
Definition py_round2 (x : float) : float :=
  match x with
  | S754_finite s m e =>
      if 0 <=? e then x
      else match div_half_even (100 * Z.pos m) (2 ^ (- e)) with
           | Z.pos n => float_div (S754_finite s n 0) (S754_finite false 100 0)
           | _ => S754_zero s
           end
  | _ => x
  end.

(** ** The Normalizer: [calculate_net_positions] *)

(** A raw record is a dictionary decoded from the provider's JSON. *)
Abbreviation raw_record := (gmap string pyval).

(** One entry of the Series: the dictionary built at lines 126-132, whose
    five keys are fixed. *)
Record PositionRecord : Type := {
  date : pyval;
  hf_net : float;
  retail_net : float;
  hf_long : float;
  hf_short : float
}.

(** [record[key]] *)
Definition dict_item (record : raw_record) (key : string) : result pyval :=
  match record !! key with
  | Some v => Ok v
  | None => Raise KeyError
  end.

(** [record.get(key, 0)] *)
Definition dict_get0 (record : raw_record) (key : string) : pyval :=
  default (PyInt 0) (record !! key).

Section Normalizer.

(** [float(s)] on a string: [None] when the string is not a float
    literal, in which case Python raises [ValueError]. *)
Variable float_of_str : string → option float.

(** [float(v)] *)
Definition py_float (v : pyval) : result float :=
  match v with
  | PyFloat f => Ok f
  | PyInt z =>
      match float_of_Z z with
      | S754_infinity _ => Raise OverflowError
      | f => Ok f
      end
  | PyBool b => Ok (float_of_Z (if b then 1 else 0))
  | PyStr s =>
      match float_of_str s with
      | Some f => Ok f
      | None => Raise ValueError
      end
  | PyNone | PyContainer => Raise TypeError
  end.

(** The body of the [try] block, lines 121-132. *)
Definition process_record (record : raw_record) : result PositionRecord :=
  hf_long ← py_float (dict_get0 record "lev_money_positions_long");
  hf_short ← py_float (dict_get0 record "lev_money_positions_short");
  retail_long ← py_float (dict_get0 record "nonrept_positions_long_all");
  retail_short ← py_float (dict_get0 record "nonrept_positions_short_all");
  d ← dict_item record "report_date_as_yyyy_mm_dd";
  Ok {| date := d;
        hf_net := float_sub hf_long hf_short;
        retail_net := float_sub retail_long retail_short;
        hf_long := hf_long;
        hf_short := hf_short |}.

(** [except (KeyError, ValueError)] *)
Definition caught (e : exn) : bool :=
  match e with
  | KeyError | ValueError => true
  | _ => false
  end.

(** The loop of lines 119-134: a record whose body raises a caught
    exception is skipped, any other exception leaves the function. *)
Fixpoint calculate_net_positions (data : list raw_record)
    : result (list PositionRecord) :=
  match data with
  | [] => Ok []
  | record :: rest =>
      match process_record record with
      | Ok p => processed ← calculate_net_positions rest; Ok (p :: processed)
      | Raise e =>
          if caught e then calculate_net_positions rest else Raise e
      end
  end.

End Normalizer.

(** ** The detector: [detect_signals] *)

Abbreviation SignalResult := (gmap string pyval).

(** [detect_signals(data, divergence_weeks=52, extreme_weeks=156)], lines
    138-213.  [data] is a Series as [calculate_net_positions] builds it,
    newest record first; the two window sizes are Python integers. *)
Definition detect_signals (data : list PositionRecord)
    (divergence_weeks extreme_weeks : Z) : result SignalResult :=
  if len data <? 2 then
    Ok (list_to_map
          [ ("current_net", PyInt 0);
            ("bullish_divergence", PyBool false);
            ("bearish_divergence", PyBool false);
            ("extreme_bullish", PyBool false);
            ("extreme_bearish", PyBool false);
            ("status", PyStr "INSUFFICIENT_DATA") ])
  else
    current ← py_index data 0;
    let current_net := hf_net current in
    let divergence_data :=
      py_slice data None (Some (Z.min divergence_weeks (len data))) in
    let extreme_data :=
      py_slice data None (Some (Z.min extreme_weeks (len data))) in
    let hf_nets := hf_net <$> extreme_data in
    extreme_low ← py_min hf_nets;
    extreme_high ← py_max hf_nets;
    let extreme_bullish := float_eq current_net extreme_low in
    let extreme_bearish := float_eq current_net extreme_high in
    let divergence_nets := hf_net <$> divergence_data in
    recent_low ← py_min (py_slice divergence_nets (Some (-26)) None);
    older_low ← py_min (py_slice divergence_nets (Some (-52)) (Some (-26)));
    bullish_divergence ←
      (if float_gt recent_low older_low
       then last ← py_index divergence_nets (-1); Ok (float_lt current_net last)
       else Ok false);
    recent_high ← py_max (py_slice divergence_nets (Some (-26)) None);
    older_high ← py_max (py_slice divergence_nets (Some (-52)) (Some (-26)));
    bearish_divergence ←
      (if float_lt recent_high older_high
       then last ← py_index divergence_nets (-1); Ok (float_gt current_net last)
       else Ok false);
    let status : string :=
      if bullish_divergence : bool then "🔥 BULLISH DIVERGENCE"
      else if bearish_divergence : bool then "🔥 BEARISH DIVERGENCE"
      else if extreme_bullish then "⚠️ EXTREME BULLISH"
      else if extreme_bearish then "⚠️ EXTREME BEARISH"
      else "NEUTRAL" in
    Ok (list_to_map
          [ ("current_net", PyFloat (py_round2 current_net));
            ("hf_long", PyFloat (py_round2 (hf_long current)));
            ("hf_short", PyFloat (py_round2 (hf_short current)));
            ("bullish_divergence", PyBool bullish_divergence);
            ("bearish_divergence", PyBool bearish_divergence);
            ("extreme_bullish", PyBool extreme_bullish);
            ("extreme_bearish", PyBool extreme_bearish);
            ("status", PyStr status);
            ("date", date current) ]).

(** *** The stages of [detect_signals]

    The three blocks of the function body, each on its own, for the
    statements below; [detect_signals_stages] shows that the function is
    their composition. *)

(** Lines 191-201: the status by precedence. *)
Definition status_label
    (bullish_divergence bearish_divergence extreme_bullish extreme_bearish : bool)
    : string :=
  if bullish_divergence then "🔥 BULLISH DIVERGENCE"
  else if bearish_divergence then "🔥 BEARISH DIVERGENCE"
  else if extreme_bullish then "⚠️ EXTREME BULLISH"
  else if extreme_bearish then "⚠️ EXTREME BEARISH"
  else "NEUTRAL".

(** Lines 162-175: the extreme flags [(extreme_bullish, extreme_bearish)]. *)
Definition extreme_flags (data : list PositionRecord) (extreme_weeks : Z)
    : result (bool * bool) :=
  current ← py_index data 0;
  let current_net := hf_net current in
  let extreme_data :=
    py_slice data None (Some (Z.min extreme_weeks (len data))) in
  let hf_nets := hf_net <$> extreme_data in
  extreme_low ← py_min hf_nets;
  extreme_high ← py_max hf_nets;
  Ok (float_eq current_net extreme_low, float_eq current_net extreme_high).

(** Lines 162-166 and 179-189: the divergence flags
    [(bullish_divergence, bearish_divergence)]. *)
Definition divergence_flags (data : list PositionRecord) (divergence_weeks : Z)
    : result (bool * bool) :=
  current ← py_index data 0;
  let current_net := hf_net current in
  let divergence_data :=
    py_slice data None (Some (Z.min divergence_weeks (len data))) in
  let divergence_nets := hf_net <$> divergence_data in
  recent_low ← py_min (py_slice divergence_nets (Some (-26)) None);
  older_low ← py_min (py_slice divergence_nets (Some (-52)) (Some (-26)));
  bullish_divergence ←
    (if float_gt recent_low older_low
     then last ← py_index divergence_nets (-1); Ok (float_lt current_net last)
     else Ok false);
  recent_high ← py_max (py_slice divergence_nets (Some (-26)) None);
  older_high ← py_max (py_slice divergence_nets (Some (-52)) (Some (-26)));
  bearish_divergence ←
    (if float_lt recent_high older_high
     then last ← py_index divergence_nets (-1); Ok (float_gt current_net last)
     else Ok false);
  Ok (bullish_divergence, bearish_divergence).

(** The dictionary returned at lines 153-160. *)
Definition insufficient_data : SignalResult :=
  list_to_map
    [ ("current_net", PyInt 0);
      ("bullish_divergence", PyBool false);
      ("bearish_divergence", PyBool false);
      ("extreme_bullish", PyBool false);
      ("extreme_bearish", PyBool false);
      ("status", PyStr "INSUFFICIENT_DATA") ].

(** The dictionary returned at lines 203-213. *)
Definition signal_result (current : PositionRecord)
    (bullish_divergence bearish_divergence extreme_bullish extreme_bearish : bool)
    : SignalResult :=
  list_to_map
    [ ("current_net", PyFloat (py_round2 (hf_net current)));
      ("hf_long", PyFloat (py_round2 (hf_long current)));
      ("hf_short", PyFloat (py_round2 (hf_short current)));
      ("bullish_divergence", PyBool bullish_divergence);
      ("bearish_divergence", PyBool bearish_divergence);
      ("extreme_bullish", PyBool extreme_bullish);
      ("extreme_bearish", PyBool extreme_bearish);
      ("status",
       PyStr (status_label bullish_divergence bearish_divergence
                extreme_bullish extreme_bearish));
      ("date", date current) ].

(** ** The callers: [analyze_asset] and the loop of [main]

    The provider is reached through [fetch_cot_data], which catches every
    exception of the request and returns [None] then; it is a parameter
    here.  What the functions print is left out.  An asset's configuration
    maps its keys to strings, the lookback configuration maps its keys to
    integers. *)

(** [config[key]] *)
Definition config_item {V} (config : gmap string V) (key : string) : result V :=
  match config !! key with
  | Some v => Ok v
  | None => Raise KeyError
  end.

(** [v != s] for a string [s]: a value that is not a string differs. *)
Definition py_ne_str (v : pyval) (s : string) : bool :=
  match v with
  | PyStr t => negb (String.eqb t s)
  | _ => true
  end.

Section Callers.

Variable float_of_str : string → option float.

(** [fetch_cot_data(contract_name, limit)] *)
Variable fetch_cot_data : string → Z → option (list raw_record).

(** Lines 215-245.  [not data] holds of [None] and of the empty list;
    the two [print] calls of lines 238-239 read [status] and
    [current_net]. *)
Definition analyze_asset (asset_code : string)
    (asset_config : gmap string string) (lookback_config : gmap string Z)
    : result (option (gmap string pyval)) :=
  _ ← config_item asset_config "name";
  contract_name ← config_item asset_config "contract_name";
  limit ← config_item lookback_config "extreme_weeks";
  match fetch_cot_data contract_name limit with
  | None | Some [] => Ok None
  | Some data =>
      processed ← calculate_net_positions float_of_str data;
      match processed with
      | [] => Ok None
      | _ =>
          divergence_weeks ← config_item lookback_config "divergence_weeks";
          extreme_weeks ← config_item lookback_config "extreme_weeks";
          signals ← detect_signals processed divergence_weeks extreme_weeks;
          _ ← dict_item signals "status";
          _ ← dict_item signals "current_net";
          asset_name ← config_item asset_config "name";
          Ok (Some (signals ∪
                    list_to_map
                      [ ("asset_code", PyStr asset_code);
                        ("asset_name", PyStr asset_name) ]))
      end
  end.

(** The entry of [active_signals] built at lines 303-307. *)
Definition active_signal (asset_code : string)
    (asset_config : gmap string string) (analysis : gmap string pyval)
    : result (gmap string pyval) :=
  name ← config_item asset_config "name";
  signal ← dict_item analysis "status";
  net_position ← dict_item analysis "current_net";
  Ok (list_to_map
        [ ("asset", PyStr (name ++ " (" ++ asset_code ++ ")"));
          ("signal", signal);
          ("net_position", net_position) ]).

(** The loop of [main], lines 291-307, from the lists [results] and
    [active_signals] built so far: an analysis that is [None] or an empty
    dictionary is skipped, the others are appended to [results], and to
    [active_signals] when their status is not NEUTRAL. *)
Fixpoint analyze_assets (assets : list (string * gmap string string))
    (lookback_config : gmap string Z)
    (results active_signals : list (gmap string pyval))
    : result (list (gmap string pyval) * list (gmap string pyval)) :=
  match assets with
  | [] => Ok (results, active_signals)
  | (asset_code, asset_config) :: rest =>
      analysis ← analyze_asset asset_code asset_config lookback_config;
      match analysis with
      | None => analyze_assets rest lookback_config results active_signals
      | Some a =>
          if decide (size a = 0%nat)
          then analyze_assets rest lookback_config results active_signals
          else
            status ← dict_item a "status";
            if py_ne_str status "NEUTRAL"
            then
              s ← active_signal asset_code asset_config a;
              analyze_assets rest lookback_config
                (results ++ [a]) (active_signals ++ [s])
            else
              analyze_assets rest lookback_config
                (results ++ [a]) active_signals
      end
  end.

End Callers.

(** ** The specification's reading of the Normalizer *)

(** The four numeric fields, in the order the code reads them. *)
Definition numeric_fields : list string :=
  [ "lev_money_positions_long"; "lev_money_positions_short";
    "nonrept_positions_long_all"; "nonrept_positions_short_all" ].

Definition has_date (record : raw_record) : bool :=
  bool_decide (is_Some (record !! "report_date_as_yyyy_mm_dd")).

Section NormalizerSpec.

Variable float_of_str : string → option float.

(** [float(record.get(key, 0))] *)
Definition field (record : raw_record) (key : string) : result float :=
  py_float float_of_str (dict_get0 record key).

(** The field is a string that [float] rejects with [ValueError]. *)
Definition unparsable (record : raw_record) (key : string) : bool :=
  match field record key with
  | Raise ValueError => true
  | _ => false
  end.

(** The field is absent, or a value that [float] converts. *)
Definition convertible (record : raw_record) (key : string) : bool :=
  match field record key with
  | Ok _ => true
  | Raise _ => false
  end.

(** No numeric field makes [float] raise an exception other than
    [ValueError]: each is absent, a float, a boolean, a string or an
    integer within the range of floats. *)
Definition numbers_or_text (record : raw_record) : bool :=
  forallb (λ key, convertible record key || unparsable record key)
    numeric_fields.

(** Section 4.1 of the specification, in its own words: an absent or
    unparsable numeric field counts as zero. *)
Definition coerce (record : raw_record) (key : string) : float :=
  match field record key with
  | Ok f => f
  | Raise _ => float_of_Z 0
  end.

Definition normalize (record : raw_record) : PositionRecord :=
  let hf_long := coerce record "lev_money_positions_long" in
  let hf_short := coerce record "lev_money_positions_short" in
  let retail_long := coerce record "nonrept_positions_long_all" in
  let retail_short := coerce record "nonrept_positions_short_all" in
  {| date := default PyNone (record !! "report_date_as_yyyy_mm_dd");
     hf_net := float_sub hf_long hf_short;
     retail_net := float_sub retail_long retail_short;
     hf_long := hf_long;
     hf_short := hf_short |}.

(** The Series the specification describes: the records that have the
    date field, normalized, in their order. *)
Definition spec_series (data : list raw_record) : list PositionRecord :=
  normalize <$> filter (λ record, has_date record = true) data.

(** The records the code leaves out: those without the date field and
    those with an unparsable numeric field. *)
Definition dropped (record : raw_record) : bool :=
  negb (has_date record) || existsb (unparsable record) numeric_fields.

End NormalizerSpec.

(** ** The specification's reading of the divergence window

    Section 4.3 of the specification, in its own words: the window is the
    most recent 52 records, "recent" its first 26 records (the newest 26)
    and "older" the next 26; the flag compares the two minima and the
    current net with the window's last record. *)
Definition spec_bullish_divergence (data : list PositionRecord) : result bool :=
  let window := hf_net <$> take 52 data in
  current ← py_index data 0;
  recent ← py_min (take 26 window);
  older ← py_min (take 26 (drop 26 window));
  last ← py_index window (-1);
  Ok (float_gt recent older && float_lt (hf_net current) last).

(** The nine fields the specification lists for a SignalResult. *)
Definition has_all_fields (r : SignalResult) : Prop :=
  Forall (λ key : string, is_Some (r !! key))
    [ "current_net"; "hf_long"; "hf_short"; "date";
      "bullish_divergence"; "bearish_divergence";
      "extreme_bullish"; "extreme_bearish"; "status" ].

(** ** Example inputs *)

(** A week whose hedge-fund net position is the whole number [net]
    (long [net], short zero). *)
Definition week (net : Z) : PositionRecord :=
  {| date := PyStr "2024-01-02";
     hf_net := float_of_Z net;
     retail_net := float_of_Z 0;
     hf_long := float_of_Z net;
     hf_short := float_of_Z 0 |}.

(** Two weeks of data. *)
Definition two_weeks : list PositionRecord := [week 1; week 2].

(** Scenario C of the specification: the newest 26 weeks are at 5, the 26
    weeks before them at 1 except the oldest week of the window, at 10. *)
Definition scenario_C : list PositionRecord :=
  week <$> (replicate 26 5 ++ replicate 25 1 ++ [10]).

(** 27 weeks: the newest at 1, then 25 weeks at 2 and the oldest at 3. *)
Definition rising_floor_27 : list PositionRecord :=
  week <$> (1 :: replicate 25 2 ++ [3]).

(** The float 0.125. *)
Definition one_eighth : float := S754_finite false 4503599627370496 (-55).

(** A week whose net position is 0.125. *)
Definition fractional_week : PositionRecord :=
  {| date := PyStr "2024-01-02";
     hf_net := one_eighth;
     retail_net := float_of_Z 0;
     hf_long := one_eighth;
     hf_short := float_of_Z 0 |}.

(** 27 weeks, the newest of them fractional. *)
Definition fractional_series : list PositionRecord :=
  fractional_week :: (week <$> replicate 26 1).

(** Scenario D of the specification: 156 weeks, the current one at 9 and
    the 155 weeks before it at 3. *)
Definition scenario_D : list PositionRecord :=
  week <$> (9 :: replicate 155 3).

(** An instance of [float] on strings for the examples: it reads a
    nonempty string of decimal digits, as [float] does, and rejects the
    other strings; the examples use it on digit strings and on strings
    without a digit only. *)
Definition digit_value (c : ascii) : option Z :=
  let n := Z.of_nat (nat_of_ascii c) in
  if (48 <=? n) && (n <=? 57) then Some (n - 48) else None.

Fixpoint digits_value (s : string) (acc : Z) : option Z :=
  match s with
  | EmptyString => Some acc
  | String c s' => d ← digit_value c; digits_value s' (10 * acc + d)
  end.

Definition float_of_digits (s : string) : option float :=
  match s with
  | EmptyString => None
  | _ => float_of_Z <$> digits_value s 0
  end.

(** A raw record as the provider sends it: every field is a string. *)
Definition raw (report_date hf_long hf_short : string) : raw_record :=
  list_to_map
    [ ("report_date_as_yyyy_mm_dd", PyStr report_date);
      ("lev_money_positions_long", PyStr hf_long);
      ("lev_money_positions_short", PyStr hf_short);
      ("nonrept_positions_long_all", PyStr "10");
      ("nonrept_positions_short_all", PyStr "4") ].

(** A record with its date and an unparsable long position. *)
Definition raw_unparsable : raw_record := raw "2024-01-09" "n/a" "30".

(** A record without the date field and without short positions. *)
Definition raw_undated : raw_record :=
  list_to_map [ ("lev_money_positions_long", PyStr "70") ].

(** A record with its date and without short positions. *)
Definition raw_no_short : raw_record :=
  list_to_map
    [ ("report_date_as_yyyy_mm_dd", PyStr "2024-01-02");
      ("lev_money_positions_long", PyStr "70") ].

Definition raw_sequence : list raw_record :=
  [ raw "2024-01-16" "120" "20"; raw_unparsable; raw_undated; raw_no_short ].

(** A record whose long position is JSON null. *)
Definition raw_null : raw_record :=
  list_to_map
    [ ("report_date_as_yyyy_mm_dd", PyStr "2024-01-23");
      ("lev_money_positions_long", PyNone);
      ("lev_money_positions_short", PyStr "n/a") ].

(** The 27 weeks of [rising_floor_27] with other retail nets, and with
    other dates and positions in the older weeks. *)
Definition rising_floor_other : list PositionRecord :=
  week 1 ::
  ((λ net, {| date := PyStr "2023-06-06"; hf_net := float_of_Z net;
              retail_net := float_of_Z 11;
              hf_long := float_of_Z (net + 40);
              hf_short := float_of_Z 40 |})
     <$> (replicate 25 2 ++ [3])).

(** 27 weeks, the newest of them with a NaN net position (as the
    difference of two infinite positions is). *)
Definition nan_series : list PositionRecord :=
  {| date := PyStr "2024-01-02"; hf_net := S754_nan;
     retail_net := float_of_Z 0;
     hf_long := S754_infinity false; hf_short := S754_infinity false |}
  :: (week <$> replicate 26 1).

(** 27 weeks at the same net position. *)
Definition flat_series : list PositionRecord := week <$> replicate 27 4.

(** The lookback configuration and two assets of [DEFAULT_CONFIG], lines
    24-62. *)
Definition default_lookback : gmap string Z :=
  list_to_map [ ("divergence_weeks", 52); ("extreme_weeks", 156) ].

Definition nasdaq_config : gmap string string :=
  list_to_map
    [ ("name", "Nasdaq 100"); ("contract_name", "NASDAQ MINI");
      ("cftc_code", "209742") ].

Definition ether_config : gmap string string :=
  list_to_map
    [ ("name", "Ethereum"); ("contract_name", "ETHER CASH SETTLED");
      ("cftc_code", "ETH") ].

(** An asset whose contract the provider does not know. *)
Definition unknown_config : gmap string string :=
  list_to_map [ ("name", "Unknown"); ("contract_name", "UNKNOWN") ].

(** An asset configuration without its contract name. *)
Definition unnamed_config : gmap string string :=
  list_to_map [ ("name", "Euro FX") ].

(** A provider that has one week of data for the Nasdaq contract, three
    weeks for the Ether contract, and fails on the other contracts. *)
Definition provider (contract_name : string) (limit : Z)
    : option (list raw_record) :=
  if String.eqb contract_name "NASDAQ MINI"
  then Some [ raw "2024-01-16" "120" "20" ]
  else if String.eqb contract_name "ETHER CASH SETTLED"
  then Some [ raw "2024-01-16" "120" "20"; raw "2024-01-09" "110" "20";
              raw "2024-01-02" "100" "20" ]
  else None.

(** * Properties *)

(** ** The order on floats *)

Section FloatOrder.

Implicit Types a b c : float.

Lemma pos_compare_cont_Eq (m1 m2 : positive) :
  PosDef.Pos.compare_cont Eq m1 m2 = (m1 ?= m2)%positive.
Proof. reflexivity. Qed.

(** Comparing the other way round gives the opposite outcome. *)
Lemma SFcompare_swap a b : SFcompare b a = CompOpp <$> SFcompare a b.
Proof.
  destruct a as [[]|[]| |[] m1 e1], b as [[]|[]| |[] m2 e2];
    simpl; try reflexivity;
    rewrite (Z.compare_antisym e1 e2), !pos_compare_cont_Eq,
      (Pos.compare_antisym m1 m2);
    destruct (e1 ?= e2); simpl; try reflexivity;
    destruct (m1 ?= m2)%positive; reflexivity.
Qed.

Lemma float_lt_asym a b : float_lt a b = true → float_lt b a = false.
Proof.
  unfold float_lt, SFltb. rewrite (SFcompare_swap a b).
  destruct (SFcompare a b) as [[]|]; simpl; congruence.
Qed.

Lemma float_lt_gt_exclusive a b : float_lt a b && float_gt a b = false.
Proof.
  unfold float_gt. destruct (float_lt a b) eqn:Hlt; [|reflexivity].
  simpl. now apply float_lt_asym.
Qed.

Lemma float_le_not_nan a b :
  float_le a b = true → is_nan a = false ∧ is_nan b = false.
Proof. destruct a, b; simpl; intros H; try discriminate; auto. Qed.

Lemma float_le_refl a : is_nan a = false → float_le a a = true.
Proof.
  destruct a as [[]|[]| |[] m e]; simpl; try reflexivity; try discriminate;
    intros _; unfold float_le, SFleb; simpl;
    rewrite Z.compare_refl, pos_compare_cont_Eq, Pos.compare_refl;
    reflexivity.
Qed.

Lemma SFcompare_not_nan a b :
  is_nan a = false → is_nan b = false → ∃ o, SFcompare a b = Some o.
Proof. destruct a, b; simpl; try discriminate; eauto. Qed.

(** On floats that are not NaN the order is total. *)
Lemma float_lt_false_le a b :
  is_nan a = false → is_nan b = false →
  float_lt a b = false → float_le b a = true.
Proof.
  intros Ha Hb. destruct (SFcompare_not_nan a b Ha Hb) as [o Ho].
  unfold float_lt, float_le, SFltb, SFleb.
  rewrite (SFcompare_swap a b), Ho. destruct o; simpl; congruence.
Qed.

Lemma float_le_antisym a b :
  float_le a b = true → float_le b a = true → float_eq a b = true.
Proof.
  unfold float_le, float_eq, SFleb, SFeqb. rewrite (SFcompare_swap a b).
  destruct (SFcompare a b) as [[]|]; simpl; congruence.
Qed.

Lemma float_eq_le a b : float_eq a b = true → float_le a b = true.
Proof.
  unfold float_le, float_eq, SFleb, SFeqb.
  destruct (SFcompare a b) as [[]|]; congruence.
Qed.

Lemma float_eq_sym a b : float_eq a b = float_eq b a.
Proof.
  unfold float_eq, SFeqb. rewrite (SFcompare_swap a b).
  destruct (SFcompare a b) as [[]|]; reflexivity.
Qed.

Local Ltac order_cases :=
  repeat match goal with
    | |- context [(?x ?= ?y)%Z] =>
        let H := fresh in destruct (Z.compare_spec x y) as [H|H|H]
    | |- context [PosDef.Pos.compare_cont Eq ?x ?y] =>
        let H := fresh in
        rewrite (pos_compare_cont_Eq x y);
        destruct (Pos.compare_spec x y) as [H|H|H]
    end;
  simpl; try congruence; try lia.

Lemma float_le_trans a b c :
  float_le a b = true → float_le b c = true → float_le a c = true.
Proof.
  unfold float_le, SFleb.
  destruct a as [[]|[]| |[] m1 e1], b as [[]|[]| |[] m2 e2],
    c as [[]|[]| |[] m3 e3];
    simpl; try congruence; order_cases.
Qed.

End FloatOrder.

(** ** The error monad *)

Lemma bind_Ok {A B} (m : result A) (f : A → result B) (b : B) :
  m ≫= f = Ok b → ∃ a, m = Ok a ∧ f a = Ok b.
Proof. destruct m as [a|e]; simpl; [eauto | discriminate]. Qed.

(** ** Builtins *)

Lemma len_nonneg {A} (l : list A) : 0 <= len l.
Proof. unfold len. lia. Qed.

Lemma len_fmap {A B} (f : A → B) (l : list A) : len (f <$> l) = len l.
Proof. unfold len. now rewrite length_fmap. Qed.

Lemma len_cons {A} (x : A) (l : list A) : len (x :: l) = len l + 1.
Proof. unfold len. simpl. lia. Qed.

Lemma py_index_0 {A} (x : A) (l : list A) : py_index (x :: l) 0 = Ok x.
Proof. reflexivity. Qed.

(** [l[-1]] is the last item of a list that has one. *)
Lemma py_index_last {A} (l : list A) (x : A) :
  last l = Some x → py_index l (-1) = Ok x.
Proof.
  intros Hl. unfold py_index. simpl.
  assert (Hlen : (0 < length l)%nat).
  { destruct l; [discriminate | simpl; lia]. }
  replace (-1 + len l <? 0) with false by (unfold len; lia).
  rewrite last_lookup in Hl.
  replace (Z.to_nat (-1 + len l)) with (Nat.pred (length l))
    by (unfold len; lia).
  now rewrite Hl.
Qed.

(** [l[:k]] *)
Lemma py_slice_prefix {A} (l : list A) (k : Z) :
  py_slice l None (Some k) = take (Z.to_nat (slice_bound (len l) k)) l.
Proof.
  unfold py_slice. simpl. rewrite drop_0. f_equal. lia.
Qed.

(** [l[:min(weeks, len(l))]] for a window of at least one week. *)
Lemma py_slice_window {A} (l : list A) (weeks : Z) :
  0 <= weeks →
  py_slice l None (Some (Z.min weeks (len l)))
  = take (Z.to_nat (Z.min weeks (len l))) l.
Proof.
  intros Hw. rewrite py_slice_prefix. f_equal. unfold slice_bound.
  pose proof (len_nonneg l). destruct (Z.ltb_spec (Z.min weeks (len l)) 0); lia.
Qed.

(** [l[-k:]] *)
Lemma py_slice_suffix {A} (l : list A) (k : Z) :
  0 < k → py_slice l (Some (- k)) None = drop (Z.to_nat (len l - k)) l.
Proof.
  intros Hk. unfold py_slice, slice_bound. simpl.
  replace (- k <? 0) with true by lia.
  replace (Z.to_nat (Z.max (- k + len l) 0)) with (Z.to_nat (len l - k)) by lia.
  apply take_ge. rewrite length_drop. unfold len. lia.
Qed.

(** [l[-a:-b]] *)
Lemma py_slice_middle {A} (l : list A) (a b : Z) :
  0 < b → b <= a →
  py_slice l (Some (- a)) (Some (- b))
  = take (Z.to_nat (Z.max (len l - b) 0 - Z.max (len l - a) 0))
      (drop (Z.to_nat (len l - a)) l).
Proof.
  intros Hb Hab. unfold py_slice, slice_bound. simpl.
  replace (- a <? 0) with true by lia.
  replace (- b <? 0) with true by lia.
  f_equal; [lia | f_equal; lia].
Qed.

Lemma py_min_Raise (l : list float) (e : exn) :
  py_min l = Raise e → l = [] ∧ e = ValueError.
Proof. destruct l; simpl; [intros [= <-]; auto | discriminate]. Qed.

Lemma py_max_Raise (l : list float) (e : exn) :
  py_max l = Raise e → l = [] ∧ e = ValueError.
Proof. destruct l; simpl; [intros [= <-]; auto | discriminate]. Qed.

Lemma py_min_is_Ok (l : list float) : l ≠ [] → ∃ m, py_min l = Ok m.
Proof. destruct l; [congruence | simpl; eauto]. Qed.

Lemma py_max_is_Ok (l : list float) : l ≠ [] → ∃ m, py_max l = Ok m.
Proof. destruct l; [congruence | simpl; eauto]. Qed.

Lemma float_lt_le (a b : float) : float_lt a b = true → float_le a b = true.
Proof.
  unfold float_lt, float_le, SFltb, SFleb.
  destruct (SFcompare a b) as [[]|]; congruence.
Qed.

(** The result of [min] is one of the items. *)
Lemma py_min_elem (l : list float) (m : float) : py_min l = Ok m → m ∈ l.
Proof.
  destruct l as [|x rest]; simpl; [discriminate|]. intros [= <-].
  revert x. induction rest as [|y rest IH]; intros x; simpl.
  - apply list_elem_of_here.
  - specialize (IH (if float_lt y x then y else x)).
    apply elem_of_cons in IH as [->|IH].
    + destruct (float_lt y x); [right; left | left].
    + right; now right.
Qed.

Lemma py_max_elem (l : list float) (m : float) : py_max l = Ok m → m ∈ l.
Proof.
  destruct l as [|x rest]; simpl; [discriminate|]. intros [= <-].
  revert x. induction rest as [|y rest IH]; intros x; simpl.
  - apply list_elem_of_here.
  - specialize (IH (if float_gt y x then y else x)).
    apply elem_of_cons in IH as [->|IH].
    + destruct (float_gt y x); [right; left | left].
    + right; now right.
Qed.

(** On a list without NaN, [min] returns a lower bound of the items. *)
Lemma py_min_lower_bound (l : list float) (m : float) :
  Forall (λ y, is_nan y = false) l →
  py_min l = Ok m → Forall (λ y, float_le m y = true) l.
Proof.
  destruct l as [|x rest]; simpl; [discriminate|]. intros Hnan [= <-].
  revert x Hnan. induction rest as [|y rest IH]; intros x Hnan; simpl.
  - constructor; [|constructor]. apply float_le_refl. now inversion Hnan.
  - inversion Hnan as [|? ? Hx Hrest]; subst.
    inversion Hrest as [|? ? Hy Hrest']; subst.
    set (x' := if float_lt y x then y else x).
    assert (Hx' : is_nan x' = false) by (subst x'; now destruct (float_lt y x)).
    assert (Hle : float_le x' x = true ∧ float_le x' y = true).
    { subst x'. destruct (float_lt y x) eqn:Hlt.
      - split; [now apply float_lt_le | now apply float_le_refl].
      - split; [now apply float_le_refl | now apply float_lt_false_le]. }
    assert (Hnan' : Forall (λ y, is_nan y = false) (x' :: rest))
      by (constructor; assumption).
    specialize (IH x' Hnan').
    inversion IH as [|? ? Hm Hall]; subst.
    destruct Hle as [Hle1 Hle2].
    repeat constructor; eauto using float_le_trans.
Qed.

(** On a list without NaN, [max] returns an upper bound of the items. *)
Lemma py_max_upper_bound (l : list float) (m : float) :
  Forall (λ y, is_nan y = false) l →
  py_max l = Ok m → Forall (λ y, float_le y m = true) l.
Proof.
  destruct l as [|x rest]; simpl; [discriminate|]. intros Hnan [= <-].
  revert x Hnan. induction rest as [|y rest IH]; intros x Hnan; simpl.
  - constructor; [|constructor]. apply float_le_refl. now inversion Hnan.
  - inversion Hnan as [|? ? Hx Hrest]; subst.
    inversion Hrest as [|? ? Hy Hrest']; subst.
    set (x' := if float_gt y x then y else x).
    assert (Hx' : is_nan x' = false) by (subst x'; now destruct (float_gt y x)).
    assert (Hle : float_le x x' = true ∧ float_le y x' = true).
    { subst x'. unfold float_gt. destruct (SFltb x y) eqn:Hlt.
      - split; [now apply float_lt_le | now apply float_le_refl].
      - split; [now apply float_le_refl | now apply float_lt_false_le]. }
    assert (Hnan' : Forall (λ y, is_nan y = false) (x' :: rest))
      by (constructor; assumption).
    specialize (IH x' Hnan').
    inversion IH as [|? ? Hm Hall]; subst.
    destruct Hle as [Hle1 Hle2].
    repeat constructor; eauto using float_le_trans.
Qed.

(** ** [detect_signals] as the composition of its stages *)

Lemma detect_signals_stages (data : list PositionRecord) (D E : Z) :
  detect_signals data D E =
  if len data <? 2 then Ok insufficient_data
  else
    current ← py_index data 0;
    '(extreme_bullish, extreme_bearish) ← extreme_flags data E;
    '(bullish_divergence, bearish_divergence) ← divergence_flags data D;
    Ok (signal_result current bullish_divergence bearish_divergence
          extreme_bullish extreme_bearish).
Proof.
  unfold detect_signals, extreme_flags, divergence_flags.
  destruct (len data <? 2); [reflexivity|].
  destruct (py_index data 0) as [current|e]; simpl; [|reflexivity].
  repeat match goal with
    | |- context [mbind _ ?m] =>
        lazymatch m with
        | context [mbind] => fail
        | _ => destruct m; simpl; try reflexivity
        end
    | |- context [if ?b then _ else _] => destruct b; simpl; try reflexivity
    end.
Qed.

(** ** The stages *)

(** The window of a detector holds the most recent [weeks] records, or
    the whole Series when it is shorter. *)
Lemma extreme_flags_window (current : PositionRecord)
    (rest : list PositionRecord) (E : Z) :
  1 <= E →
  let data := current :: rest in
  let window := hf_net <$> take (Z.to_nat (Z.min E (len data))) data in
  ∃ lo hi,
    py_min window = Ok lo ∧ py_max window = Ok hi ∧
    extreme_flags data E
    = Ok (float_eq (hf_net current) lo, float_eq (hf_net current) hi).
Proof.
  intros HE data window.
  assert (Hne : window ≠ []).
  { subst window data. rewrite len_cons.
    pose proof (len_nonneg rest).
    destruct (Z.to_nat (Z.min E (len rest + 1))) eqn:Hn; [lia | discriminate]. }
  destruct (py_min_is_Ok window Hne) as [lo Hlo].
  destruct (py_max_is_Ok window Hne) as [hi Hhi].
  exists lo, hi. repeat split; try assumption.
  unfold extreme_flags. change (py_index data 0) with (Ok current).
  cbn [mbind result_bind]. rewrite py_slice_window by lia. fold window.
  now rewrite Hlo, Hhi.
Qed.

(** What the divergence stage computes when it returns. *)
Lemma divergence_flags_Ok (data : list PositionRecord) (D : Z) (bd sd : bool) :
  divergence_flags data D = Ok (bd, sd) →
  let nets := hf_net <$> py_slice data None (Some (Z.min D (len data))) in
  ∃ current recent_low older_low recent_high older_high last,
    py_index data 0 = Ok current ∧
    py_min (py_slice nets (Some (-26)) None) = Ok recent_low ∧
    py_min (py_slice nets (Some (-52)) (Some (-26))) = Ok older_low ∧
    py_max (py_slice nets (Some (-26)) None) = Ok recent_high ∧
    py_max (py_slice nets (Some (-52)) (Some (-26))) = Ok older_high ∧
    py_index nets (-1) = Ok last ∧
    bd = float_gt recent_low older_low && float_lt (hf_net current) last ∧
    sd = float_lt recent_high older_high && float_gt (hf_net current) last.
Proof.
  intros H nets. unfold divergence_flags in H. fold nets in H.
  apply bind_Ok in H as (current & Hcur & H). simpl in H.
  apply bind_Ok in H as (recent_low & Hrl & H).
  apply bind_Ok in H as (older_low & Hol & H).
  apply bind_Ok in H as (b & Hb & H).
  apply bind_Ok in H as (recent_high & Hrh & H).
  apply bind_Ok in H as (older_high & Hoh & H).
  apply bind_Ok in H as (s & Hs & H).
  injection H as <- <-.
  assert (Hlast : ∃ last, py_index nets (-1) = Ok last).
  { apply py_min_elem in Hrl.
    destruct (last nets) as [x|] eqn:Hl.
    - exists x. now apply py_index_last.
    - apply last_None in Hl. rewrite Hl in Hrl. inversion Hrl. }
  destruct Hlast as [last Hlast].
  exists current, recent_low, older_low, recent_high, older_high, last.
  repeat split; try assumption.
  - destruct (float_gt recent_low older_low); simpl in *.
    + rewrite Hlast in Hb. simpl in Hb. congruence.
    + congruence.
  - destruct (float_lt recent_high older_high); simpl in *.
    + rewrite Hlast in Hs. simpl in Hs. congruence.
    + congruence.
Qed.

(** The two divergence flags need the current net strictly below,
    respectively strictly above, the window's last record. *)
Lemma divergence_flags_exclusive (data : list PositionRecord) (D : Z)
    (bd sd : bool) :
  divergence_flags data D = Ok (bd, sd) → bd && sd = false.
Proof.
  intros H. apply divergence_flags_Ok in H.
  destruct H as (cur & rl & ol & rh & oh & last & _ & _ & _ & _ & _ & _ & -> & ->).
  pose proof (float_lt_gt_exclusive (hf_net cur) last) as Hex.
  destruct (float_lt (hf_net cur) last), (float_gt (hf_net cur) last);
    try discriminate; now rewrite ?andb_false_r.
Qed.

(** Every result of [detect_signals] is one of the two dictionaries. *)
Lemma detect_signals_Ok (data : list PositionRecord) (D E : Z)
    (r : SignalResult) :
  detect_signals data D E = Ok r →
  (len data < 2 ∧ r = insufficient_data) ∨
  (2 <= len data ∧
   ∃ current bd sd eb es,
     py_index data 0 = Ok current ∧
     extreme_flags data E = Ok (eb, es) ∧
     divergence_flags data D = Ok (bd, sd) ∧
     r = signal_result current bd sd eb es).
Proof.
  rewrite detect_signals_stages.
  destruct (Z.ltb_spec (len data) 2) as [Hlt|Hge].
  - intros [= <-]. now left.
  - intros H. right. split; [assumption|].
    apply bind_Ok in H as (current & Hcur & H).
    apply bind_Ok in H as ([eb es] & He & H).
    apply bind_Ok in H as ([bd sd] & Hd & H).
    injection H as <-. now exists current, bd, sd, eb, es.
Qed.

(** Conversely, the stages' results give the result of the function. *)
Lemma detect_signals_eval (data : list PositionRecord) (D E : Z)
    (current : PositionRecord) (bd sd eb es : bool) :
  2 <= len data →
  py_index data 0 = Ok current →
  extreme_flags data E = Ok (eb, es) →
  divergence_flags data D = Ok (bd, sd) →
  detect_signals data D E = Ok (signal_result current bd sd eb es).
Proof.
  intros Hlen Hcur He Hd. rewrite detect_signals_stages.
  replace (len data <? 2) with false by lia.
  now rewrite Hcur, He, Hd.
Qed.

(** The fields of the two dictionaries. *)
Lemma insufficient_data_fields :
  insufficient_data !! "current_net" = Some (PyInt 0) ∧
  insufficient_data !! "bullish_divergence" = Some (PyBool false) ∧
  insufficient_data !! "bearish_divergence" = Some (PyBool false) ∧
  insufficient_data !! "extreme_bullish" = Some (PyBool false) ∧
  insufficient_data !! "extreme_bearish" = Some (PyBool false) ∧
  insufficient_data !! "status" = Some (PyStr "INSUFFICIENT_DATA") ∧
  insufficient_data !! "hf_long" = None ∧
  insufficient_data !! "hf_short" = None ∧
  insufficient_data !! "date" = None.
Proof. repeat split; reflexivity. Qed.

Lemma signal_result_fields (current : PositionRecord) (bd sd eb es : bool) :
  let r := signal_result current bd sd eb es in
  r !! "current_net" = Some (PyFloat (py_round2 (hf_net current))) ∧
  r !! "hf_long" = Some (PyFloat (py_round2 (hf_long current))) ∧
  r !! "hf_short" = Some (PyFloat (py_round2 (hf_short current))) ∧
  r !! "bullish_divergence" = Some (PyBool bd) ∧
  r !! "bearish_divergence" = Some (PyBool sd) ∧
  r !! "extreme_bullish" = Some (PyBool eb) ∧
  r !! "extreme_bearish" = Some (PyBool es) ∧
  r !! "status" = Some (PyStr (status_label bd sd eb es)) ∧
  r !! "date" = Some (date current).
Proof. repeat split; reflexivity. Qed.

(** ** Short and long Series *)

(** With at most 26 records the "older" slice [[-52:-26]] is empty. *)
Lemma older_slice_empty {A} (l : list A) :
  len l <= 26 → py_slice l (Some (-52)) (Some (-26)) = [].
Proof.
  intros Hl. change (-52) with (- (52)). change (-26) with (- (26)).
  rewrite py_slice_middle by lia.
  replace (Z.max (len l - 26) 0 - Z.max (len l - 52) 0) with 0 by lia.
  reflexivity.
Qed.

Lemma len_py_slice_prefix {A} (l : list A) (k : Z) :
  len (py_slice l None (Some k)) <= len l.
Proof.
  rewrite py_slice_prefix. unfold len. rewrite length_take. lia.
Qed.

(** A Series of 2 to 26 records makes [min] fail on an empty slice,
    whatever the two window sizes are. *)
Lemma detect_signals_short_raises (data : list PositionRecord) (D E : Z) :
  2 <= len data <= 26 → detect_signals data D E = Raise ValueError.
Proof.
  intros [Hlo Hhi]. rewrite detect_signals_stages.
  replace (len data <? 2) with false by lia.
  destruct data as [|current rest]; [unfold len in Hlo; simpl in Hlo; lia|].
  rewrite py_index_0. cbn [mbind result_bind].
  destruct (extreme_flags (current :: rest) E) as [[eb es]|e] eqn:He.
  - cbn [mbind result_bind]. unfold divergence_flags.
    rewrite py_index_0. cbn [mbind result_bind].
    set (nets := hf_net <$> py_slice (current :: rest) None _).
    assert (Hn : len nets <= 26).
    { subst nets. rewrite len_fmap.
      etransitivity; [apply len_py_slice_prefix | assumption]. }
    rewrite (older_slice_empty nets Hn).
    destruct (py_min (py_slice nets (Some (-26)) None)) as [m|e] eqn:Hm.
    + reflexivity.
    + apply py_min_Raise in Hm as [_ ->]. reflexivity.
  - unfold extreme_flags in He. rewrite py_index_0 in He.
    cbn [mbind result_bind] in He.
    destruct (py_min _) as [lo|e1] eqn:H1 in He.
    + cbn [mbind result_bind] in He.
      destruct (py_max _) as [hi|e2] eqn:H2 in He; [discriminate|].
      apply py_max_Raise in H2 as [_ ->]. injection He as <-. reflexivity.
    + apply py_min_Raise in H1 as [_ ->]. injection He as <-. reflexivity.
Qed.

(** With at least 27 records in the divergence window both slices hold
    a record, and the stage returns. *)
Lemma divergence_flags_returns (data : list PositionRecord) (D : Z) :
  27 <= len data → 27 <= D → ∃ bd sd, divergence_flags data D = Ok (bd, sd).
Proof.
  intros Hlen HD.
  destruct data as [|current rest]; [unfold len in Hlen; simpl in Hlen; lia|].
  unfold divergence_flags. rewrite py_index_0. cbn [mbind result_bind].
  rewrite py_slice_window by lia.
  set (nets := hf_net <$> take _ (current :: rest)).
  assert (Hn : 27 <= len nets).
  { subst nets. rewrite len_fmap. unfold len in *. rewrite length_take. lia. }
  assert (Hrecent : py_slice nets (Some (-26)) None ≠ []).
  { change (-26) with (- (26)). rewrite py_slice_suffix by lia.
    intros Heq. apply (f_equal length) in Heq. rewrite length_drop in Heq.
    unfold len in *. simpl in Heq. lia. }
  assert (Holder : py_slice nets (Some (-52)) (Some (-26)) ≠ []).
  { change (-52) with (- (52)). change (-26) with (- (26)).
    rewrite py_slice_middle by lia.
    intros Heq. apply (f_equal length) in Heq.
    rewrite length_take, length_drop in Heq.
    unfold len in *. simpl in Heq. lia. }
  destruct (py_min_is_Ok _ Hrecent) as [rl ->].
  destruct (py_min_is_Ok _ Holder) as [ol ->].
  destruct (py_max_is_Ok _ Hrecent) as [rh ->].
  destruct (py_max_is_Ok _ Holder) as [oh ->].
  assert (Hlast : ∃ x, py_index nets (-1) = Ok x).
  { destruct (last nets) as [x|] eqn:Hl.
    - exists x. now apply py_index_last.
    - apply last_None in Hl. rewrite Hl in Hn. unfold len in Hn. simpl in Hn. lia. }
  destruct Hlast as [x Hx]. cbn [mbind result_bind]. rewrite Hx.
  destruct (float_gt rl ol), (float_lt rh oh); cbn [mbind result_bind]; eauto.
Qed.

(** [detect_signals] returns on every Series of at least 27 records when
    the divergence window is at least 27 weeks and the extreme window at
    least one week. *)
Lemma detect_signals_returns (data : list PositionRecord) (D E : Z) :
  27 <= len data → 27 <= D → 1 <= E → ∃ r, detect_signals data D E = Ok r.
Proof.
  intros Hlen HD HE. rewrite detect_signals_stages.
  replace (len data <? 2) with false by lia.
  destruct (divergence_flags_returns data D Hlen HD) as (bd & sd & Hd).
  destruct data as [|current rest]; [unfold len in Hlen; simpl in Hlen; lia|].
  destruct (extreme_flags_window current rest E HE) as (lo & hi & _ & _ & He).
  rewrite py_index_0, He, Hd. cbn [mbind result_bind]. eauto.
Qed.

(** With a 52-week window on at least 52 records, [recent_low] is taken
    over the last 26 records of the window and [older_low] over its first
    26 records; the Series being newest first, the first 26 records are
    the newest ones. *)
Lemma divergence_halves_52 (data : list PositionRecord) (bd sd : bool) :
  52 <= len data →
  divergence_flags data 52 = Ok (bd, sd) →
  let nets := hf_net <$> take 52 data in
  ∃ current recent_low older_low recent_high older_high last,
    head data = Some current ∧
    py_min (drop 26 nets) = Ok recent_low ∧
    py_min (take 26 nets) = Ok older_low ∧
    py_max (drop 26 nets) = Ok recent_high ∧
    py_max (take 26 nets) = Ok older_high ∧
    py_index nets (-1) = Ok last ∧
    bd = float_gt recent_low older_low && float_lt (hf_net current) last ∧
    sd = float_lt recent_high older_high && float_gt (hf_net current) last.
Proof.
  intros Hlen H nets. apply divergence_flags_Ok in H. cbv zeta in H.
  rewrite py_slice_window in H by lia.
  replace (Z.to_nat (Z.min 52 (len data))) with 52%nat in H by lia.
  fold nets in H.
  assert (Hn : len nets = 52).
  { subst nets. rewrite len_fmap. unfold len in *. rewrite length_take. lia. }
  change (-26) with (- (26)) in H. change (-52) with (- (52)) in H.
  rewrite py_slice_suffix, py_slice_middle in H by lia.
  rewrite Hn in H. change (Z.to_nat (52 - 26)) with 26%nat in H.
  change (Z.to_nat (Z.max (52 - 26) 0 - Z.max (52 - 52) 0)) with 26%nat in H.
  change (Z.to_nat (52 - 52)) with 0%nat in H. rewrite drop_0 in H.
  destruct H as (cur & rl & ol & rh & oh & last & Hcur & H).
  exists cur, rl, ol, rh, oh, last. split; [|exact H].
  destruct data; [discriminate|]. now injection Hcur as ->.
Qed.

(** ** The Normalizer *)

Section NormalizerProperties.

Variable float_of_str : string → option float.

Local Abbreviation calculate := (calculate_net_positions float_of_str).
Local Abbreviation process := (process_record float_of_str).

(** The loop treats a concatenation part by part. *)
Lemma calculate_net_positions_app (pre post : list raw_record) :
  calculate (pre ++ post)
  = ps ← calculate pre; qs ← calculate post; Ok (ps ++ qs).
Proof.
  induction pre as [|record pre IH]; simpl.
  - now destruct (calculate post).
  - destruct (process record) as [p|e].
    + rewrite IH. destruct (calculate pre); [|reflexivity].
      now destruct (calculate post).
    + destruct (caught e); [exact IH | reflexivity].
Qed.

Lemma calculate_net_positions_kept (record : raw_record)
    (p : PositionRecord) :
  process record = Ok p → calculate [record] = Ok [p].
Proof. simpl. now intros ->. Qed.

Lemma calculate_net_positions_skipped (record : raw_record) (e : exn) :
  process record = Raise e → caught e = true → calculate [record] = Ok [].
Proof. simpl. now intros -> ->. Qed.

(** An absent numeric field reads as the integer 0, hence as 0.0. *)
Lemma field_absent (record : raw_record) (key : string) :
  record !! key = None → field float_of_str record key = Ok (S754_zero false).
Proof. unfold field, dict_get0. now intros ->. Qed.

Lemma process_record_fields (record : raw_record) (d : pyval)
    (hl hs rl rs : float) :
  record !! "report_date_as_yyyy_mm_dd" = Some d →
  field float_of_str record "lev_money_positions_long" = Ok hl →
  field float_of_str record "lev_money_positions_short" = Ok hs →
  field float_of_str record "nonrept_positions_long_all" = Ok rl →
  field float_of_str record "nonrept_positions_short_all" = Ok rs →
  process record
  = Ok {| date := d; hf_net := float_sub hl hs;
          retail_net := float_sub rl rs; hf_long := hl; hf_short := hs |}.
Proof.
  unfold field, process_record, dict_item. now intros -> -> -> -> ->.
Qed.

(** A record whose numeric fields are numbers or text and of which one
    is unparsable raises [ValueError]. *)
Lemma process_record_unparsable (record : raw_record) :
  numbers_or_text float_of_str record = true →
  existsb (unparsable float_of_str record) numeric_fields = true →
  process record = Raise ValueError.
Proof.
  unfold numbers_or_text, numeric_fields, convertible, unparsable, field,
    process_record.
  cbn [forallb existsb].
  destruct (py_float _ (dict_get0 record "lev_money_positions_long"))
    as [?|[]]; cbn; try discriminate; try reflexivity;
  destruct (py_float _ (dict_get0 record "lev_money_positions_short"))
    as [?|[]]; cbn; try discriminate; try reflexivity;
  destruct (py_float _ (dict_get0 record "nonrept_positions_long_all"))
    as [?|[]]; cbn; try discriminate; try reflexivity;
  destruct (py_float _ (dict_get0 record "nonrept_positions_short_all"))
    as [?|[]]; cbn; try discriminate; reflexivity.
Qed.

(** What the body of the loop does with a record whose numeric fields
    are numbers or text. *)
Lemma process_record_dropped (record : raw_record) :
  numbers_or_text float_of_str record = true →
  process record =
  if dropped float_of_str record
  then Raise (if existsb (unparsable float_of_str record) numeric_fields
              then ValueError else KeyError)
  else Ok (normalize float_of_str record).
Proof.
  intros Hty.
  destruct (existsb (unparsable float_of_str record) numeric_fields) eqn:Hun.
  { unfold dropped. rewrite Hun, orb_true_r.
    now apply process_record_unparsable. }
  unfold dropped. rewrite Hun, orb_false_r.
  revert Hty Hun.
  unfold numbers_or_text, numeric_fields, normalize, coerce, convertible,
    unparsable, has_date, field, process_record, dict_item.
  cbn [forallb existsb].
  destruct (py_float _ (dict_get0 record "lev_money_positions_long"))
    as [?|[]]; cbn; try discriminate;
  destruct (py_float _ (dict_get0 record "lev_money_positions_short"))
    as [?|[]]; cbn; try discriminate;
  destruct (py_float _ (dict_get0 record "nonrept_positions_long_all"))
    as [?|[]]; cbn; try discriminate;
  destruct (py_float _ (dict_get0 record "nonrept_positions_short_all"))
    as [?|[]]; cbn; try discriminate.
  intros _ _.
  destruct (record !! "report_date_as_yyyy_mm_dd") as [d|] eqn:Hd.
  - rewrite bool_decide_eq_true_2 by eauto. reflexivity.
  - rewrite bool_decide_eq_false_2 by (intros [? ?]; discriminate).
    reflexivity.
Qed.

(** On raw records whose numeric fields are numbers or text, the loop
    is a filter followed by a map. *)
Lemma calculate_net_positions_filter (data : list raw_record) :
  Forall (λ record, numbers_or_text float_of_str record = true) data →
  calculate data
  = Ok (normalize float_of_str
          <$> filter (λ record, dropped float_of_str record = false) data).
Proof.
  induction 1 as [|record data Hty _ IH]; [reflexivity|].
  simpl. rewrite (process_record_dropped record Hty), IH.
  rewrite filter_cons.
  destruct (dropped float_of_str record) eqn:Hdrop.
  - rewrite decide_False by discriminate.
    now destruct (existsb _ numeric_fields).
  - rewrite decide_True by reflexivity. reflexivity.
Qed.

End NormalizerProperties.

(** * The claims *)

(** C1 (code defect).  The claim: a Series whose divergence window holds
    fewer than 52 records makes [detect_signals] return both divergence
    flags false without raising.  The code guards only Series of fewer
    than 2 records: on two weeks of data it raises [ValueError], and on 27
    weeks it returns with [bullish_divergence] true. *)
Theorem C1_short_window_not_guarded :
  detect_signals two_weeks 52 156 = Raise ValueError ∧
  ∃ r, detect_signals rising_floor_27 52 156 = Ok r ∧
       r !! "bullish_divergence" = Some (PyBool true).
Proof.
  split.
  - apply detect_signals_short_raises. unfold len. simpl. lia.
  - exists (signal_result (week 1) true false true false).
    split; [|reflexivity].
    apply detect_signals_eval; vm_compute; congruence.
Qed.

(** C2 (code defect).  The claim: on at least 52 records,
    [bullish_divergence] is true exactly when the minimum over the newest
    26 records exceeds the minimum over the 26 records before them and the
    current net is below the net of the window's oldest record.  On
    scenario C the specification's condition holds, yet the code returns
    [bullish_divergence] false and the status NEUTRAL: its [recent_low] is
    the minimum of the 26 oldest records of the window. *)
Theorem C2_scenario_C_not_flagged :
  52 <= len scenario_C ∧
  spec_bullish_divergence scenario_C = Ok true ∧
  ∃ r, detect_signals scenario_C 52 156 = Ok r ∧
       r !! "bullish_divergence" = Some (PyBool false) ∧
       r !! "status" = Some (PyStr "NEUTRAL").
Proof.
  split; [vm_compute; discriminate|].
  split; [vm_compute; reflexivity|].
  exists (signal_result (week 5) false false false false).
  split; [|split; reflexivity].
  apply detect_signals_eval; vm_compute; congruence.
Qed.

(** C3 (the claim as stated fails).  A record that has its date and an
    unparsable long position is not kept with that position read as zero:
    it is left out of the Series. *)
Lemma C3_unparsable_record_dropped :
  has_date raw_unparsable = true ∧
  unparsable float_of_digits raw_unparsable "lev_money_positions_long" = true ∧
  calculate_net_positions float_of_digits [raw_unparsable] = Ok [] ∧
  spec_series float_of_digits [raw_unparsable]
  = [normalize float_of_digits raw_unparsable].
Proof. repeat split; vm_compute; reflexivity. Qed.

(** C3 (amended).  For every raw record that contains the date field:
    when each of its four numeric fields is absent or converted by
    [float], the Normalizer keeps the record with the four fields
    converted, an absent field reading as zero; when its numeric fields
    are numbers or text and one of them is unparsable, the record is left
    out. *)
Theorem C3_record_with_date (float_of_str : string → option float)
    (record : raw_record) (d : pyval) (pre post : list raw_record)
    (ps qs : list PositionRecord) :
  record !! "report_date_as_yyyy_mm_dd" = Some d →
  calculate_net_positions float_of_str pre = Ok ps →
  calculate_net_positions float_of_str post = Ok qs →
  (∀ hl hs rl rs : float,
     field float_of_str record "lev_money_positions_long" = Ok hl →
     field float_of_str record "lev_money_positions_short" = Ok hs →
     field float_of_str record "nonrept_positions_long_all" = Ok rl →
     field float_of_str record "nonrept_positions_short_all" = Ok rs →
     calculate_net_positions float_of_str (pre ++ record :: post)
     = Ok (ps ++ {| date := d; hf_net := float_sub hl hs;
                    retail_net := float_sub rl rs;
                    hf_long := hl; hf_short := hs |} :: qs)) ∧
  (∀ key : string,
     record !! key = None →
     field float_of_str record key = Ok (S754_zero false)) ∧
  (numbers_or_text float_of_str record = true →
   existsb (unparsable float_of_str record) numeric_fields = true →
   calculate_net_positions float_of_str (pre ++ record :: post)
   = Ok (ps ++ qs)).
Proof.
  intros Hd Hpre Hpost. split; [|split].
  - intros hl hs rl rs Hhl Hhs Hrl Hrs.
    rewrite calculate_net_positions_app, Hpre. cbn [mbind result_bind].
    change (record :: post) with ([record] ++ post).
    rewrite calculate_net_positions_app, Hpost.
    rewrite (calculate_net_positions_kept _ _ _
               (process_record_fields _ _ _ _ _ _ _ Hd Hhl Hhs Hrl Hrs)).
    reflexivity.
  - apply field_absent.
  - intros Hty Hun.
    rewrite calculate_net_positions_app, Hpre. cbn [mbind result_bind].
    change (record :: post) with ([record] ++ post).
    rewrite calculate_net_positions_app, Hpost.
    rewrite (calculate_net_positions_skipped _ _ ValueError
               (process_record_unparsable _ _ Hty Hun) eq_refl).
    reflexivity.
Qed.

(** The record without short positions is kept, between its neighbours,
    with the short position 0.0. *)
Lemma C3_record_with_date_witness :
  raw_no_short !! "report_date_as_yyyy_mm_dd" = Some (PyStr "2024-01-02") ∧
  calculate_net_positions float_of_digits [raw "2024-01-16" "120" "20"]
  = Ok [normalize float_of_digits (raw "2024-01-16" "120" "20")] ∧
  calculate_net_positions float_of_digits [raw_undated] = Ok [] ∧
  calculate_net_positions float_of_digits
    ([raw "2024-01-16" "120" "20"] ++ raw_no_short :: [raw_undated])
  = Ok ([normalize float_of_digits (raw "2024-01-16" "120" "20")]
        ++ {| date := PyStr "2024-01-02";
              hf_net := float_sub (float_of_Z 70) (S754_zero false);
              retail_net := float_sub (S754_zero false) (S754_zero false);
              hf_long := float_of_Z 70;
              hf_short := S754_zero false |} :: []).
Proof.
  assert (Hd : raw_no_short !! "report_date_as_yyyy_mm_dd"
               = Some (PyStr "2024-01-02")) by reflexivity.
  assert (Hpre : calculate_net_positions float_of_digits
                   [raw "2024-01-16" "120" "20"]
                 = Ok [normalize float_of_digits (raw "2024-01-16" "120" "20")])
    by (vm_compute; reflexivity).
  assert (Hpost : calculate_net_positions float_of_digits [raw_undated] = Ok [])
    by (vm_compute; reflexivity).
  split; [exact Hd|]. split; [exact Hpre|]. split; [exact Hpost|].
  apply (C3_record_with_date float_of_digits raw_no_short _ _ _ _ _
           Hd Hpre Hpost); vm_compute; reflexivity.
Defined.

(** C4 (the claim as stated fails).  On the empty Series the returned
    dictionary has no [hf_long], [hf_short] or [date] entry. *)
Lemma C4_sentinel_lacks_fields :
  ∃ r, detect_signals [] 52 156 = Ok r ∧ ¬ has_all_fields r.
Proof.
  exists insufficient_data. split; [reflexivity|].
  intros H. apply Forall_cons in H as [_ H]. apply Forall_cons in H as [H _].
  destruct H as [v Hv]. discriminate Hv.
Qed.

(** C4 (amended).  Every result of [detect_signals] contains
    [current_net], the four flags and [status]; it contains [hf_long],
    [hf_short] and [date] as well when the Series has at least 2 records,
    and none of the three when the Series has fewer. *)
Theorem C4_result_fields (data : list PositionRecord) (D E : Z)
    (r : SignalResult) :
  detect_signals data D E = Ok r →
  Forall (λ key : string, is_Some (r !! key))
    [ "current_net"; "bullish_divergence"; "bearish_divergence";
      "extreme_bullish"; "extreme_bearish"; "status" ] ∧
  (2 <= len data → has_all_fields r) ∧
  (len data < 2 →
   r !! "hf_long" = None ∧ r !! "hf_short" = None ∧ r !! "date" = None).
Proof.
  intros H. apply detect_signals_Ok in H as [[Hlt ->]|[Hge H]].
  - split; [|split].
    + repeat constructor; eexists; reflexivity.
    + lia.
    + intros _. repeat split; reflexivity.
  - destruct H as (current & bd & sd & eb & es & _ & _ & _ & ->).
    split; [|split].
    + repeat constructor; eexists; reflexivity.
    + intros _. repeat constructor; eexists; reflexivity.
    + lia.
Qed.

Lemma C4_result_fields_witness :
  ∃ r, detect_signals rising_floor_27 52 156 = Ok r ∧ has_all_fields r.
Proof.
  set (r := signal_result (week 1) true false true false).
  assert (Hr : detect_signals rising_floor_27 52 156 = Ok r)
    by (apply detect_signals_eval; vm_compute; congruence).
  exists r. split; [exact Hr|].
  apply (C4_result_fields rising_floor_27 52 156 r Hr).
  vm_compute. congruence.
Defined.

(** C5 (the claim as stated fails).  On a Series whose newest record has
    the net position 0.125 the returned [current_net] is 0.12, which is
    not equal to 0.125. *)
Lemma C5_current_net_rounded_away :
  2 <= len fractional_series ∧
  head fractional_series = Some fractional_week ∧
  ∃ r x, detect_signals fractional_series 52 156 = Ok r ∧
         r !! "current_net" = Some (PyFloat x) ∧
         float_eq x (hf_net fractional_week) = false.
Proof.
  split; [vm_compute; congruence|]. split; [reflexivity|].
  exists (signal_result fractional_week true false true false),
    (py_round2 one_eighth).
  split; [|split; [reflexivity | vm_compute; reflexivity]].
  apply detect_signals_eval; vm_compute; congruence.
Qed.

(** C5 (amended).  For every Series of at least 2 records, the
    [current_net] of every result that [detect_signals] returns is the
    [hf_net] of the first record rounded to two decimals; and
    [detect_signals] does return when the Series and the divergence window
    hold at least 27 records and the extreme window at least one. *)
Theorem C5_current_net_rounded (data : list PositionRecord) (D E : Z) :
  2 <= len data →
  (∀ r, detect_signals data D E = Ok r →
        ∃ current,
          head data = Some current ∧
          r !! "current_net" = Some (PyFloat (py_round2 (hf_net current)))) ∧
  (27 <= len data → 27 <= D → 1 <= E → ∃ r, detect_signals data D E = Ok r).
Proof.
  intros Hlen. split.
  - intros r H. apply detect_signals_Ok in H as [[Hlt _]|[_ H]]; [lia|].
    destruct H as (current & bd & sd & eb & es & Hcur & _ & _ & ->).
    exists current. split; [|reflexivity].
    destruct data; [discriminate|]. now injection Hcur as ->.
  - intros. now apply detect_signals_returns.
Qed.

Lemma C5_current_net_rounded_witness :
  2 <= len fractional_series ∧
  ∃ r current,
    detect_signals fractional_series 52 156 = Ok r ∧
    head fractional_series = Some current ∧
    r !! "current_net" = Some (PyFloat (py_round2 (hf_net current))).
Proof.
  assert (Hlen : 2 <= len fractional_series) by (vm_compute; congruence).
  split; [exact Hlen|].
  destruct (C5_current_net_rounded fractional_series 52 156 Hlen) as [Hfield Hret].
  destruct Hret as [r Hr]; [vm_compute; congruence | lia | lia |].
  destruct (Hfield r Hr) as (current & Hhead & Hnet).
  exists r, current. auto.
Defined.

(** C6.  For every Series of fewer than 2 records, [detect_signals]
    returns the status INSUFFICIENT_DATA and the four flags false. *)
Theorem C6_insufficient_data (data : list PositionRecord) (D E : Z) :
  len data < 2 →
  ∃ r, detect_signals data D E = Ok r ∧
       r !! "status" = Some (PyStr "INSUFFICIENT_DATA") ∧
       r !! "bullish_divergence" = Some (PyBool false) ∧
       r !! "bearish_divergence" = Some (PyBool false) ∧
       r !! "extreme_bullish" = Some (PyBool false) ∧
       r !! "extreme_bearish" = Some (PyBool false).
Proof.
  intros Hlen. exists insufficient_data.
  rewrite detect_signals_stages.
  replace (len data <? 2) with true by lia.
  repeat split; reflexivity.
Qed.

Lemma C6_insufficient_data_witness :
  len [week 7] < 2 ∧
  ∃ r, detect_signals [week 7] 52 156 = Ok r ∧
       r !! "status" = Some (PyStr "INSUFFICIENT_DATA") ∧
       r !! "bullish_divergence" = Some (PyBool false) ∧
       r !! "bearish_divergence" = Some (PyBool false) ∧
       r !! "extreme_bullish" = Some (PyBool false) ∧
       r !! "extreme_bearish" = Some (PyBool false).
Proof.
  split; [reflexivity|].
  apply (C6_insufficient_data [week 7] 52 156). reflexivity.
Defined.

(** C7 (the claim as stated fails).  On the empty Series the status is
    INSUFFICIENT_DATA, which is none of the labels the precedence chooses
    from. *)
Lemma C7_sentinel_outside_precedence :
  ∃ r, detect_signals [] 52 156 = Ok r ∧
       r !! "status" = Some (PyStr "INSUFFICIENT_DATA") ∧
       ∀ bd sd eb es : bool, status_label bd sd eb es ≠ "INSUFFICIENT_DATA".
Proof.
  exists insufficient_data. repeat split.
  intros [] [] [] []; discriminate.
Qed.

(** C7 (amended).  Every result of [detect_signals] carries one status
    label: INSUFFICIENT_DATA when the Series has fewer than 2 records, and
    otherwise the label chosen from the flags of the result by the
    precedence bullish divergence, bearish divergence, extreme bullish,
    extreme bearish, neutral. *)
Theorem C7_one_status (data : list PositionRecord) (D E : Z)
    (r : SignalResult) :
  detect_signals data D E = Ok r →
  ∃ s : string,
    r !! "status" = Some (PyStr s) ∧
    (len data < 2 → s = "INSUFFICIENT_DATA") ∧
    (2 <= len data →
     ∃ bd sd eb es : bool,
       r !! "bullish_divergence" = Some (PyBool bd) ∧
       r !! "bearish_divergence" = Some (PyBool sd) ∧
       r !! "extreme_bullish" = Some (PyBool eb) ∧
       r !! "extreme_bearish" = Some (PyBool es) ∧
       (bd = true → s = "🔥 BULLISH DIVERGENCE") ∧
       (bd = false → sd = true → s = "🔥 BEARISH DIVERGENCE") ∧
       (bd = false → sd = false → eb = true → s = "⚠️ EXTREME BULLISH") ∧
       (bd = false → sd = false → eb = false → es = true →
        s = "⚠️ EXTREME BEARISH") ∧
       (bd = false → sd = false → eb = false → es = false → s = "NEUTRAL")).
Proof.
  intros H. apply detect_signals_Ok in H as [[Hlt ->]|[Hge H]].
  - exists "INSUFFICIENT_DATA". split; [reflexivity|]. split; [auto | lia].
  - destruct H as (current & bd & sd & eb & es & _ & _ & _ & ->).
    exists (status_label bd sd eb es). split; [reflexivity|]. split; [lia|].
    intros _. exists bd, sd, eb, es.
    repeat split; try reflexivity; intros; subst; reflexivity.
Qed.

Lemma C7_one_status_witness :
  ∃ r, detect_signals rising_floor_27 52 156 = Ok r ∧
       r !! "status" = Some (PyStr "🔥 BULLISH DIVERGENCE").
Proof.
  set (r := signal_result (week 1) true false true false).
  assert (Hr : detect_signals rising_floor_27 52 156 = Ok r)
    by (apply detect_signals_eval; vm_compute; congruence).
  exists r. split; [exact Hr|].
  destruct (C7_one_status rising_floor_27 52 156 r Hr) as (s & Hs & _ & Hprec).
  destruct Hprec as (bd & sd & eb & es & Hbd & _ & _ & _ & Hbull & _);
    [vm_compute; congruence|].
  rewrite Hs. f_equal. f_equal. apply Hbull.
  assert (Hb : r !! "bullish_divergence" = Some (PyBool true)) by reflexivity.
  congruence.
Defined.

(** C8 (code defect).  The claim: on every Series of at least 2 records
    [extreme_bullish] is true exactly when the current net equals the
    minimum [hf_net] of the most recent [E] records.  On two weeks of data
    the current net, 1, is the minimum of the window, and no result
    carries the flag: [detect_signals] raises [ValueError], whatever the
    two window sizes are. *)
Theorem C8_short_series_has_no_flags :
  2 <= len two_weeks ∧
  (∃ lo,
     py_min (hf_net <$> take (Z.to_nat (Z.min 156 (len two_weeks))) two_weeks)
     = Ok lo ∧
     float_eq (hf_net (week 1)) lo = true) ∧
  ∀ D E, detect_signals two_weeks D E = Raise ValueError.
Proof.
  split; [vm_compute; congruence|]. split.
  - exists (hf_net (week 1)). split; vm_compute; reflexivity.
  - intros D E. apply detect_signals_short_raises.
    vm_compute. split; congruence.
Qed.

(** C9 (the claim as stated fails).  Of the four records of the sequence
    three have the date field, and the Series holds two records: the
    record with an unparsable field is left out although it has its
    date. *)
Lemma C9_dated_record_dropped :
  length (filter (λ record, has_date record = true) raw_sequence) = 3%nat ∧
  ∃ series,
    calculate_net_positions float_of_digits raw_sequence = Ok series ∧
    length series = 2%nat ∧
    series ≠ spec_series float_of_digits raw_sequence.
Proof.
  split; [vm_compute; reflexivity|].
  exists [normalize float_of_digits (raw "2024-01-16" "120" "20");
          normalize float_of_digits raw_no_short].
  split; [vm_compute; reflexivity|]. split; [reflexivity|].
  intros H. apply (f_equal length) in H. vm_compute in H. discriminate H.
Qed.

(** C9 (amended).  For every raw input sequence whose numeric fields are
    numbers or text, the Normalizer leaves out exactly the records that
    miss the date field or have an unparsable numeric field, and returns
    the remaining records, each with its numeric fields converted, in
    their original relative order. *)
Theorem C9_drops_and_order (float_of_str : string → option float)
    (data : list raw_record) :
  Forall (λ record, numbers_or_text float_of_str record = true) data →
  let kept := filter (λ record, dropped float_of_str record = false) data in
  calculate_net_positions float_of_str data
  = Ok (normalize float_of_str <$> kept) ∧
  kept `sublist_of` data ∧
  (∀ record,
     record ∈ kept ↔
     record ∈ data ∧ has_date record = true ∧
     ∀ key, key ∈ numeric_fields → unparsable float_of_str record key = false) ∧
  (∀ record key,
     record ∈ kept → key ∈ numeric_fields →
     field float_of_str record key = Ok (coerce float_of_str record key)).
Proof.
  intros Hty kept.
  assert (Hdrop : ∀ record,
            dropped float_of_str record = false ↔
            has_date record = true ∧
            ∀ key, key ∈ numeric_fields →
                   unparsable float_of_str record key = false).
  { intros record. unfold dropped.
    rewrite orb_false_iff, negb_false_iff.
    apply and_iff_compat_l. split.
    - intros Hex key Hkey.
      destruct (unparsable float_of_str record key) eqn:Hun; [|reflexivity].
      rewrite <- Hex. symmetry. apply existsb_exists.
      exists key. split; [now apply list_elem_of_In | assumption].
    - intros Hall. apply not_true_is_false. intros Hex.
      apply existsb_exists in Hex as (key & Hkey & Hun).
      apply list_elem_of_In in Hkey. rewrite (Hall key Hkey) in Hun.
      discriminate. }
  split; [now apply calculate_net_positions_filter|].
  split; [apply sublist_filter; apply _|]. split.
  - intros record. subst kept. rewrite list_elem_of_filter, Hdrop. tauto.
  - intros record key Hin Hkey. subst kept.
    apply list_elem_of_filter in Hin as [Hkeep Hin].
    apply Hdrop in Hkeep as [_ Hun]. specialize (Hun key Hkey).
    rewrite Forall_forall in Hty. specialize (Hty record Hin).
    unfold numbers_or_text in Hty. rewrite forallb_forall in Hty.
    apply list_elem_of_In in Hkey. specialize (Hty key Hkey).
    rewrite Hun, orb_false_r in Hty.
    unfold convertible in Hty. unfold coerce.
    now destruct (field float_of_str record key).
Qed.

Lemma C9_drops_and_order_witness :
  Forall (λ record, numbers_or_text float_of_digits record = true)
    raw_sequence ∧
  calculate_net_positions float_of_digits raw_sequence
  = Ok (normalize float_of_digits
          <$> [raw "2024-01-16" "120" "20"; raw_no_short]).
Proof.
  assert (Hty : Forall (λ record, numbers_or_text float_of_digits record = true)
                  raw_sequence)
    by (repeat constructor).
  split; [exact Hty|].
  destruct (C9_drops_and_order float_of_digits raw_sequence Hty) as [-> _].
  vm_compute. reflexivity.
Defined.

(** C10.  In every result that [detect_signals] returns, the two
    divergence flags are never both true: on a Series of at least 2
    records, [bullish_divergence] needs the current net strictly below the
    net of the divergence window's last record, and [bearish_divergence]
    needs it strictly above. *)
Theorem C10_divergences_exclusive (data : list PositionRecord) (D E : Z)
    (r : SignalResult) :
  detect_signals data D E = Ok r →
  ∃ bd sd,
    r !! "bullish_divergence" = Some (PyBool bd) ∧
    r !! "bearish_divergence" = Some (PyBool sd) ∧
    bd && sd = false ∧
    (2 <= len data →
     ∃ current last,
       head data = Some current ∧
       py_index (hf_net <$> py_slice data None (Some (Z.min D (len data))))
         (-1) = Ok last ∧
       (bd = true → float_lt (hf_net current) last = true) ∧
       (sd = true → float_gt (hf_net current) last = true)).
Proof.
  intros H. apply detect_signals_Ok in H as [[Hlt ->]|[Hge H]].
  - exists false, false. repeat split; try reflexivity. lia.
  - destruct H as (current & bd & sd & eb & es & Hcur & He & Hd & ->).
    exists bd, sd. repeat split; try reflexivity.
    + now apply divergence_flags_exclusive in Hd.
    + intros _. apply divergence_flags_Ok in Hd. cbv zeta in Hd.
      destruct Hd as (cur & rl & ol & rh & oh & last & Hcur' & _ & _ & _ & _
                      & Hlast & -> & ->).
      rewrite Hcur in Hcur'. injection Hcur' as <-.
      exists current, last. repeat split; try assumption.
      * destruct data; [discriminate|]. now injection Hcur as ->.
      * intros Hb. now apply andb_true_iff in Hb as [_ Hb].
      * intros Hb. now apply andb_true_iff in Hb as [_ Hb].
Qed.

Lemma C10_divergences_exclusive_witness :
  ∃ r, detect_signals rising_floor_27 52 156 = Ok r ∧
  ∃ bd sd,
    r !! "bullish_divergence" = Some (PyBool bd) ∧
    r !! "bearish_divergence" = Some (PyBool sd) ∧
    bd && sd = false.
Proof.
  set (r := signal_result (week 1) true false true false).
  assert (Hr : detect_signals rising_floor_27 52 156 = Ok r)
    by (apply detect_signals_eval; vm_compute; congruence).
  exists r. split; [exact Hr|].
  destruct (C10_divergences_exclusive rising_floor_27 52 156 r Hr)
    as (bd & sd & Hb & Hs & Hex & _).
  exists bd, sd. auto.
Defined.

(** * Further properties of the Normalizer *)

Section NormalizerErrors.

Variable float_of_str : string → option float.

(** [float] raises [ValueError], [TypeError] or [OverflowError] only. *)
Lemma py_float_Raise (v : pyval) (e : exn) :
  py_float float_of_str v = Raise e →
  e = ValueError ∨ e = TypeError ∨ e = OverflowError.
Proof.
  destruct v as [|b|z|f|s|]; simpl; try discriminate.
  - intros [= <-]. auto.
  - destruct (float_of_Z z); try discriminate. intros [= <-]. auto.
  - destruct (float_of_str s); [discriminate|]. intros [= <-]. auto.
  - intros [= <-]. auto.
Qed.

(** An exception of the loop body is [KeyError], for the missing date, or
    the exception of [float] on one of the numeric fields. *)
Lemma process_record_Raise (record : raw_record) (e : exn) :
  process_record float_of_str record = Raise e →
  e = KeyError ∨
  ∃ key, key ∈ numeric_fields ∧ field float_of_str record key = Raise e.
Proof.
  unfold process_record, field, numeric_fields.
  destruct (py_float _ (dict_get0 record "lev_money_positions_long"))
    as [?|e1] eqn:H1; cbn [mbind result_bind].
  2:{ intros [= <-]. right. eexists. split; [|exact H1]. set_solver. }
  destruct (py_float _ (dict_get0 record "lev_money_positions_short"))
    as [?|e2] eqn:H2; cbn [mbind result_bind].
  2:{ intros [= <-]. right. eexists. split; [|exact H2]. set_solver. }
  destruct (py_float _ (dict_get0 record "nonrept_positions_long_all"))
    as [?|e3] eqn:H3; cbn [mbind result_bind].
  2:{ intros [= <-]. right. eexists. split; [|exact H3]. set_solver. }
  destruct (py_float _ (dict_get0 record "nonrept_positions_short_all"))
    as [?|e4] eqn:H4; cbn [mbind result_bind].
  2:{ intros [= <-]. right. eexists. split; [|exact H4]. set_solver. }
  unfold dict_item. destruct (record !! "report_date_as_yyyy_mm_dd");
    cbn [mbind result_bind]; [discriminate|]. intros [= <-]. now left.
Qed.

(** The record that makes the loop raise. *)
Lemma calculate_net_positions_Raise (data : list raw_record) (e : exn) :
  calculate_net_positions float_of_str data = Raise e →
  caught e = false ∧
  ∃ record, record ∈ data ∧ process_record float_of_str record = Raise e.
Proof.
  induction data as [|record data IH]; simpl; [discriminate|].
  destruct (process_record float_of_str record) as [p|e'] eqn:Hp.
  - destruct (calculate_net_positions float_of_str data) as [ps|e'']; simpl;
      [discriminate|].
    intros [= <-]. destruct (IH eq_refl) as (Hc & r & Hr & Hraise).
    split; [assumption|]. exists r. split; [now right | assumption].
  - destruct (caught e') eqn:Hc.
    + intros H. destruct (IH H) as (Hc' & r & Hr & Hraise).
      split; [assumption|]. exists r. split; [now right | assumption].
    + intros [= <-]. split; [assumption|]. exists record. split; [left | assumption].
Qed.

(** The records of a Series come from the input in its order, each with
    the date of its raw record. *)
Lemma calculate_net_positions_dates (data : list raw_record)
    (series : list PositionRecord) :
  calculate_net_positions float_of_str data = Ok series →
  (date <$> series)
    `sublist_of` omap (λ record : raw_record,
                         record !! "report_date_as_yyyy_mm_dd") data.
Proof.
  revert series. induction data as [|record data IH]; simpl; intros series.
  - intros [= <-]. constructor.
  - set (d := record !! "report_date_as_yyyy_mm_dd").
    destruct (process_record float_of_str record) as [p|e] eqn:Hp.
    + destruct (calculate_net_positions float_of_str data) as [ps|]; simpl;
        [|discriminate].
      intros [= <-].
      assert (Hd : d = Some (date p)).
      { unfold process_record in Hp.
        do 4 (apply bind_Ok in Hp as (? & _ & Hp)).
        apply bind_Ok in Hp as (v & Hv & Hp).
        unfold dict_item in Hv. fold d in Hv.
        destruct d; [|discriminate].
        injection Hv as ->. now injection Hp as <-. }
      rewrite Hd. simpl. constructor. now apply IH.
    + destruct (caught e); [|discriminate]. intros H.
      specialize (IH series H).
      destruct d; [now constructor | assumption].
Qed.

End NormalizerErrors.

Lemma length_omap_le {A B} (f : A → option B) (l : list A) :
  (length (omap f l) ≤ length l)%nat.
Proof.
  induction l as [|x l IH]; [reflexivity|].
  cbn [omap list_omap]. destruct (f x); simpl; lia.
Qed.

(** X1.  The only exceptions that leave [calculate_net_positions] are
    [TypeError] and [OverflowError], and the exception is the one [float]
    raises on a numeric field of one of the records; [KeyError] and
    [ValueError] never leave it. *)
Theorem normalizer_escaping_exceptions (float_of_str : string → option float)
    (data : list raw_record) (e : exn) :
  calculate_net_positions float_of_str data = Raise e →
  (e = TypeError ∨ e = OverflowError) ∧
  ∃ record key,
    record ∈ data ∧ key ∈ numeric_fields ∧
    field float_of_str record key = Raise e.
Proof.
  intros H. apply calculate_net_positions_Raise in H as (Hc & record & Hin & Hp).
  apply process_record_Raise in Hp as [->|(key & Hkey & Hf)]; [discriminate|].
  split; [|now exists record, key].
  apply py_float_Raise in Hf as [->|[->| ->]]; [discriminate | auto | auto].
Qed.

Lemma normalizer_escaping_exceptions_witness :
  calculate_net_positions float_of_digits [raw_no_short; raw_null]
  = Raise TypeError ∧
  ∃ record key,
    record ∈ [raw_no_short; raw_null] ∧ key ∈ numeric_fields ∧
    field float_of_digits record key = Raise TypeError.
Proof.
  assert (H : calculate_net_positions float_of_digits [raw_no_short; raw_null]
              = Raise TypeError) by (vm_compute; reflexivity).
  split; [exact H|].
  exact (proj2 (normalizer_escaping_exceptions float_of_digits _ _ H)).
Defined.

(** X2.  A numeric field on which [float] raises [TypeError] or
    [OverflowError] makes the whole call raise that exception when the
    fields read before it convert and the records before it are
    processed, whether or not the record has its date and whatever the
    later fields and records are. *)
Theorem normalizer_field_aborts (float_of_str : string → option float)
    (record : raw_record) (before after : list string) (key : string)
    (e : exn) (pre post : list raw_record) (ps : list PositionRecord) :
  numeric_fields = before ++ key :: after →
  (∀ k, k ∈ before → convertible float_of_str record k = true) →
  field float_of_str record key = Raise e →
  caught e = false →
  calculate_net_positions float_of_str pre = Ok ps →
  calculate_net_positions float_of_str (pre ++ record :: post) = Raise e.
Proof.
  intros Hsplit Hbefore Hfield Hc Hpre.
  rewrite calculate_net_positions_app, Hpre. cbn [mbind result_bind].
  simpl.
  assert (Hp : process_record float_of_str record = Raise e).
  { assert (Hconv : ∀ k, k ∈ before →
                      ∃ f, py_float float_of_str (dict_get0 record k) = Ok f).
    { intros k Hk. specialize (Hbefore k Hk). unfold convertible, field in Hbefore.
      destruct (py_float float_of_str (dict_get0 record k)); [eauto | discriminate]. }
    unfold field in Hfield. unfold numeric_fields in Hsplit.
    unfold process_record.
    destruct before as [|k1 [|k2 [|k3 [|k4 before]]]];
      simpl in Hsplit; injection Hsplit as <-; intros; subst.
    - now rewrite Hfield.
    - destruct (Hconv "lev_money_positions_long") as [f1 ->]; [set_solver|].
      cbn [mbind result_bind]. now rewrite Hfield.
    - destruct (Hconv "lev_money_positions_long") as [f1 ->]; [set_solver|].
      destruct (Hconv "lev_money_positions_short") as [f2 ->]; [set_solver|].
      cbn [mbind result_bind]. now rewrite Hfield.
    - destruct (Hconv "lev_money_positions_long") as [f1 ->]; [set_solver|].
      destruct (Hconv "lev_money_positions_short") as [f2 ->]; [set_solver|].
      destruct (Hconv "nonrept_positions_long_all") as [f3 ->]; [set_solver|].
      cbn [mbind result_bind]. now rewrite Hfield.
    - destruct before; discriminate. }
  now rewrite Hp, Hc.
Qed.

Lemma normalizer_field_aborts_witness :
  calculate_net_positions float_of_digits
    ([raw_no_short] ++ raw_null :: [raw_unparsable])
  = Raise TypeError.
Proof.
  apply (normalizer_field_aborts float_of_digits raw_null []
           [ "lev_money_positions_short"; "nonrept_positions_long_all";
             "nonrept_positions_short_all" ]
           "lev_money_positions_long" TypeError [raw_no_short] [raw_unparsable]
           [normalize float_of_digits raw_no_short]).
  - reflexivity.
  - intros k Hk. inversion Hk.
  - reflexivity.
  - reflexivity.
  - vm_compute. reflexivity.
Defined.

(** X3.  In every record of a Series that [calculate_net_positions]
    returns, [hf_net] is the float difference of [hf_long] and
    [hf_short]. *)
Theorem normalizer_net_is_difference (float_of_str : string → option float)
    (data : list raw_record) (series : list PositionRecord) :
  calculate_net_positions float_of_str data = Ok series →
  Forall (λ p, hf_net p = float_sub (hf_long p) (hf_short p)) series.
Proof.
  revert series. induction data as [|record data IH]; simpl; intros series.
  - intros [= <-]. constructor.
  - destruct (process_record float_of_str record) as [p|e] eqn:Hp.
    + destruct (calculate_net_positions float_of_str data) as [ps|]; simpl;
        [|discriminate].
      intros [= <-]. constructor; [|now apply IH].
      unfold process_record in Hp.
      do 5 (apply bind_Ok in Hp as (? & _ & Hp)).
      now injection Hp as <-.
    + destruct (caught e); [apply IH | discriminate].
Qed.

Lemma normalizer_net_is_difference_witness :
  ∃ series,
    calculate_net_positions float_of_digits raw_sequence = Ok series ∧
    Forall (λ p, hf_net p = float_sub (hf_long p) (hf_short p)) series.
Proof.
  set (series := [normalize float_of_digits (raw "2024-01-16" "120" "20");
                  normalize float_of_digits raw_no_short]).
  assert (H : calculate_net_positions float_of_digits raw_sequence = Ok series)
    by (vm_compute; reflexivity).
  exists series. split; [exact H|].
  exact (normalizer_net_is_difference float_of_digits _ _ H).
Defined.

(** X4.  A Series that [calculate_net_positions] returns never holds more
    records than the input, and the dates of its records are, in the same
    order, dates of the input records: nothing is added, duplicated or
    reordered, on any input. *)
Theorem normalizer_dates_in_order (float_of_str : string → option float)
    (data : list raw_record) (series : list PositionRecord) :
  calculate_net_positions float_of_str data = Ok series →
  (length series ≤ length data)%nat ∧
  (date <$> series)
    `sublist_of` omap (λ record : raw_record,
                         record !! "report_date_as_yyyy_mm_dd") data.
Proof.
  intros H. apply calculate_net_positions_dates in H.
  split; [|exact H].
  apply sublist_length in H. rewrite length_fmap in H.
  etransitivity; [exact H|]. apply length_omap_le.
Qed.

Lemma normalizer_dates_in_order_witness :
  ∃ series,
    calculate_net_positions float_of_digits raw_sequence = Ok series ∧
    (length series ≤ length raw_sequence)%nat ∧
    (date <$> series)
      `sublist_of` omap (λ record : raw_record,
                           record !! "report_date_as_yyyy_mm_dd") raw_sequence.
Proof.
  set (series := [normalize float_of_digits (raw "2024-01-16" "120" "20");
                  normalize float_of_digits raw_no_short]).
  assert (H : calculate_net_positions float_of_digits raw_sequence = Ok series)
    by (vm_compute; reflexivity).
  exists series. split; [exact H|].
  exact (normalizer_dates_in_order float_of_digits _ _ H).
Defined.

(** X5.  Normalizing two batches one after the other gives the Series of
    their concatenation: when both batches are processed the Series is the
    concatenation of the two Series, and an exception of either batch is
    the exception of the whole (the first batch's first). *)
Theorem normalizer_batches (float_of_str : string → option float)
    (first second : list raw_record) :
  (∀ xs ys,
     calculate_net_positions float_of_str first = Ok xs →
     calculate_net_positions float_of_str second = Ok ys →
     calculate_net_positions float_of_str (first ++ second) = Ok (xs ++ ys)) ∧
  (∀ xs e,
     calculate_net_positions float_of_str first = Ok xs →
     calculate_net_positions float_of_str second = Raise e →
     calculate_net_positions float_of_str (first ++ second) = Raise e) ∧
  (∀ e,
     calculate_net_positions float_of_str first = Raise e →
     calculate_net_positions float_of_str (first ++ second) = Raise e).
Proof.
  repeat split; intros; rewrite calculate_net_positions_app;
    repeat match goal with H : _ = _ |- _ => rewrite H; clear H end;
    reflexivity.
Qed.

(** * Further properties of the detector *)

Lemma fmap_py_slice {A B} (f : A → B) (l : list A) (start stop : option Z) :
  f <$> py_slice l start stop = py_slice (f <$> l) start stop.
Proof.
  unfold py_slice. now rewrite len_fmap, fmap_take, fmap_drop.
Qed.

Lemma py_index_fmap_0 {A B} (f : A → B) (l : list A) :
  py_index (f <$> l) 0
  = match py_index l 0 with Ok x => Ok (f x) | Raise e => Raise e end.
Proof. now destruct l. Qed.

Lemma py_index_0_Ok {A} (l : list A) : 1 <= len l → ∃ x, py_index l 0 = Ok x.
Proof.
  destruct l as [|x l]; [unfold len; simpl; lia | intros _; now exists x].
Qed.

(** The stages raise [ValueError] only. *)
Lemma extreme_flags_Raise (data : list PositionRecord) (E : Z) (e : exn) :
  1 <= len data → extreme_flags data E = Raise e → e = ValueError.
Proof.
  intros Hlen. destruct (py_index_0_Ok data Hlen) as [current Hcur].
  unfold extreme_flags. rewrite Hcur. cbn [mbind result_bind].
  destruct (py_min _) as [lo|e1] eqn:H1.
  - cbn [mbind result_bind]. destruct (py_max _) as [hi|e2] eqn:H2;
      cbn [mbind result_bind]; [discriminate|].
    apply py_max_Raise in H2 as [_ ->]. now intros [= <-].
  - apply py_min_Raise in H1 as [_ ->]. now intros [= <-].
Qed.

Lemma divergence_flags_Raise (data : list PositionRecord) (D : Z) (e : exn) :
  1 <= len data → divergence_flags data D = Raise e → e = ValueError.
Proof.
  intros Hlen. destruct (py_index_0_Ok data Hlen) as [current Hcur].
  unfold divergence_flags. rewrite Hcur. cbn [mbind result_bind].
  set (nets := hf_net <$> py_slice data None _).
  destruct (py_min (py_slice nets (Some (-26)) None)) as [rl|e1] eqn:H1.
  2:{ apply py_min_Raise in H1 as [_ ->]. now intros [= <-]. }
  cbn [mbind result_bind].
  destruct (py_min (py_slice nets (Some (-52)) (Some (-26)))) as [ol|e2] eqn:H2.
  2:{ apply py_min_Raise in H2 as [_ ->]. now intros [= <-]. }
  cbn [mbind result_bind].
  assert (Hlast : ∃ x, py_index nets (-1) = Ok x).
  { apply py_min_elem in H1. destruct (last nets) as [x|] eqn:Hl.
    - exists x. now apply py_index_last.
    - apply last_None in Hl. rewrite Hl in H1. inversion H1. }
  destruct Hlast as [x Hx]. rewrite Hx.
  destruct (py_max (py_slice nets (Some (-26)) None)) as [rh|e3] eqn:H3.
  2:{ apply py_max_Raise in H3 as [_ ->].
      destruct (float_gt rl ol); simpl; now intros [= <-]. }
  destruct (py_max (py_slice nets (Some (-52)) (Some (-26)))) as [oh|e4] eqn:H4.
  2:{ apply py_max_Raise in H4 as [_ ->].
      destruct (float_gt rl ol); simpl; now intros [= <-]. }
  destruct (float_gt rl ol); simpl; destruct (float_lt rh oh); simpl;
    discriminate.
Qed.

Lemma detect_signals_Raise (data : list PositionRecord) (D E : Z) (e : exn) :
  detect_signals data D E = Raise e → 2 <= len data ∧ e = ValueError.
Proof.
  rewrite detect_signals_stages.
  destruct (Z.ltb_spec (len data) 2) as [Hlt|Hge]; [discriminate|].
  intros H. split; [assumption|].
  destruct (py_index_0_Ok data ltac:(lia)) as [current Hcur].
  rewrite Hcur in H. cbn [mbind result_bind] in H.
  destruct (extreme_flags data E) as [[eb es]|e1] eqn:He.
  - cbn [mbind result_bind] in H.
    destruct (divergence_flags data D) as [[bd sd]|e2] eqn:Hd;
      cbn [mbind result_bind] in H; [discriminate|].
    injection H as <-. apply (divergence_flags_Raise data D); [lia | assumption].
  - injection H as <-. apply (extreme_flags_Raise data E); [lia | assumption].
Qed.

(** A divergence window of at most 26 records makes the function raise. *)
Lemma detect_signals_narrow_raises (data : list PositionRecord) (D E : Z) :
  2 <= len data →
  len (py_slice data None (Some (Z.min D (len data)))) <= 26 →
  detect_signals data D E = Raise ValueError.
Proof.
  intros Hlen Hn.
  destruct (detect_signals data D E) as [r|e] eqn:H.
  - exfalso. apply detect_signals_Ok in H as [[Hlt _]|[_ H]]; [lia|].
    destruct H as (current & bd & sd & eb & es & _ & _ & Hd & _).
    apply divergence_flags_Ok in Hd. cbv zeta in Hd.
    destruct Hd as (_ & _ & ol & _ & _ & _ & _ & _ & Hol & _).
    rewrite older_slice_empty in Hol by (now rewrite len_fmap).
    discriminate.
  - now apply detect_signals_Raise in H as [_ ->].
Qed.

(** The stages read the [hf_net] values only. *)
Lemma extreme_flags_nets (data data' : list PositionRecord) (E : Z) :
  hf_net <$> data = hf_net <$> data' →
  extreme_flags data E = extreme_flags data' E.
Proof.
  intros Hnets.
  assert (Hlen : len data = len data').
  { rewrite <- (len_fmap hf_net data), Hnets. apply len_fmap. }
  pose proof (py_index_fmap_0 hf_net data) as Hcur.
  rewrite Hnets, py_index_fmap_0 in Hcur.
  unfold extreme_flags. rewrite !fmap_py_slice, Hnets, Hlen.
  destruct (py_index data 0), (py_index data' 0);
    try discriminate; [|congruence].
  injection Hcur as Hcur. cbn [mbind result_bind]. now rewrite Hcur.
Qed.

Lemma divergence_flags_nets (data data' : list PositionRecord) (D : Z) :
  hf_net <$> data = hf_net <$> data' →
  divergence_flags data D = divergence_flags data' D.
Proof.
  intros Hnets.
  assert (Hlen : len data = len data').
  { rewrite <- (len_fmap hf_net data), Hnets. apply len_fmap. }
  pose proof (py_index_fmap_0 hf_net data) as Hcur.
  rewrite Hnets, py_index_fmap_0 in Hcur.
  unfold divergence_flags. rewrite !fmap_py_slice, Hnets, Hlen.
  destruct (py_index data 0), (py_index data' 0);
    try discriminate; [|congruence].
  injection Hcur as Hcur. cbn [mbind result_bind]. now rewrite Hcur.
Qed.

(** X6.  [detect_signals] raises nothing but [ValueError], and raises
    only on a Series of at least 2 records: no [IndexError] or [KeyError]
    ever leaves it. *)
Theorem detector_raises_only_ValueError (data : list PositionRecord)
    (D E : Z) (e : exn) :
  detect_signals data D E = Raise e → e = ValueError ∧ 2 <= len data.
Proof.
  intros H. apply detect_signals_Raise in H as [Hlen ->]. auto.
Qed.

Lemma detector_raises_only_ValueError_witness :
  detect_signals two_weeks 52 156 = Raise ValueError ∧ 2 <= len two_weeks.
Proof.
  assert (H : detect_signals two_weeks 52 156 = Raise ValueError).
  { apply detect_signals_short_raises. vm_compute. split; congruence. }
  split; [exact H|].
  exact (proj2 (detector_raises_only_ValueError two_weeks 52 156 _ H)).
Defined.

(** X7.  With a divergence window of at least 27 weeks and an extreme
    window of at least one week (as the defaults 52 and 156 are),
    [detect_signals] returns a result exactly on the Series of fewer than
    2 or of at least 27 records, and raises [ValueError] on the Series of
    2 to 26 records. *)
Theorem detector_returns_iff (data : list PositionRecord) (D E : Z) :
  27 <= D → 1 <= E →
  ((∃ r, detect_signals data D E = Ok r) ↔ len data < 2 ∨ 27 <= len data) ∧
  (detect_signals data D E = Raise ValueError ↔ 2 <= len data <= 26).
Proof.
  intros HD HE.
  assert (Hshort : 2 <= len data <= 26 →
                   detect_signals data D E = Raise ValueError)
    by apply detect_signals_short_raises.
  assert (Hret : len data < 2 ∨ 27 <= len data →
                 ∃ r, detect_signals data D E = Ok r).
  { intros [Hlt|Hge].
    - exists insufficient_data. rewrite detect_signals_stages.
      now replace (len data <? 2) with true by lia.
    - now apply detect_signals_returns. }
  split; split.
  - intros [r Hr].
    destruct (Z.lt_ge_cases (len data) 2); [now left|].
    destruct (Z.le_gt_cases 27 (len data)); [now right|].
    rewrite Hshort in Hr by lia. discriminate.
  - exact Hret.
  - intros Hraise.
    destruct (Z.lt_ge_cases (len data) 2) as [Hlt|Hge].
    { destruct Hret as [r Hr]; [now left|]. congruence. }
    destruct (Z.le_gt_cases 27 (len data)) as [H27|H27].
    { destruct Hret as [r Hr]; [now right|]. congruence. }
    lia.
  - exact Hshort.
Qed.

Lemma detector_returns_iff_witness :
  27 <= 52 ∧ 1 <= 156 ∧
  ((∃ r, detect_signals scenario_D 52 156 = Ok r) ↔
   len scenario_D < 2 ∨ 27 <= len scenario_D).
Proof.
  assert (HD : 27 <= 52) by lia. assert (HE : 1 <= 156) by lia.
  split; [exact HD|]. split; [exact HE|].
  exact (proj1 (detector_returns_iff scenario_D 52 156 HD HE)).
Defined.

(** X8.  A divergence window of 0 to 26 weeks, or an extreme window of 0
    weeks, makes [detect_signals] raise [ValueError] on every Series of
    at least 2 records. *)
Theorem detector_narrow_windows_raise (data : list PositionRecord) (D E : Z) :
  0 <= D <= 26 ∨ E = 0 →
  2 <= len data →
  detect_signals data D E = Raise ValueError.
Proof.
  intros [HD| ->] Hlen.
  - apply detect_signals_narrow_raises; [assumption|].
    rewrite py_slice_window by lia. unfold len. rewrite length_take.
    unfold len in Hlen. lia.
  - destruct (detect_signals data D 0) as [r|e] eqn:H.
    + exfalso. apply detect_signals_Ok in H as [[Hlt _]|[_ H]]; [lia|].
      destruct H as (current & bd & sd & eb & es & Hcur & He & _).
      unfold extreme_flags in He. rewrite Hcur in He.
      cbn [mbind result_bind] in He.
      rewrite py_slice_window in He by lia.
      replace (Z.to_nat (Z.min 0 (len data))) with 0%nat in He
        by (unfold len; lia).
      discriminate He.
    + now apply detect_signals_Raise in H as [_ ->].
Qed.

Lemma detector_narrow_windows_raise_witness :
  detect_signals scenario_D 26 156 = Raise ValueError.
Proof.
  apply (detector_narrow_windows_raise scenario_D 26 156).
  - left. lia.
  - vm_compute. congruence.
Defined.

(** X9.  [detect_signals] reads the [hf_net] of the records, and of the
    first record also [hf_long], [hf_short] and [date]: two Series that
    agree on these get the same outcome, whatever their [retail_net] and
    the other fields of the older records are. *)
Theorem detector_reads_nets_only (data data' : list PositionRecord) (D E : Z) :
  hf_net <$> data = hf_net <$> data' →
  (λ p, (hf_long p, hf_short p, date p)) <$> head data
  = (λ p, (hf_long p, hf_short p, date p)) <$> head data' →
  detect_signals data D E = detect_signals data' D E.
Proof.
  intros Hnets Hhead.
  assert (Hlen : len data = len data').
  { rewrite <- (len_fmap hf_net data), Hnets. apply len_fmap. }
  rewrite !detect_signals_stages, Hlen.
  destruct (len data' <? 2); [reflexivity|].
  rewrite (extreme_flags_nets data data' E Hnets).
  rewrite (divergence_flags_nets data data' D Hnets).
  destruct data as [|current rest], data' as [|current' rest'];
    try discriminate; [reflexivity|].
  rewrite !py_index_0. cbn [mbind result_bind].
  injection Hnets as Hnet _. injection Hhead as Hlong Hshort Hdate.
  destruct (extreme_flags _ E) as [[eb es]|]; [|reflexivity].
  destruct (divergence_flags _ D) as [[bd sd]|]; [|reflexivity].
  cbn [mbind result_bind]. unfold signal_result.
  now rewrite Hnet, Hlong, Hshort, Hdate.
Qed.

Lemma detector_reads_nets_only_witness :
  detect_signals rising_floor_27 52 156
  = detect_signals rising_floor_other 52 156.
Proof.
  apply (detector_reads_nets_only rising_floor_27 rising_floor_other 52 156);
    vm_compute; reflexivity.
Defined.

Lemma py_index_elem {A} (l : list A) (i : Z) (x : A) :
  py_index l i = Ok x → x ∈ l.
Proof.
  unfold py_index. destruct (_ <? 0); [discriminate|].
  destruct (l !! _) eqn:Hl; [|discriminate].
  intros [= <-]. eapply list_elem_of_lookup_2, Hl.
Qed.

Lemma float_lt_le_not_eq (a b c : float) :
  float_lt a b = true → float_le b c = true → float_eq a c = false.
Proof.
  intros Hlt Hle. destruct (float_eq a c) eqn:Heq; [|reflexivity].
  assert (Hca : float_le c a = true)
    by (apply float_eq_le; now rewrite float_eq_sym).
  pose proof (float_le_trans b c a Hle Hca) as Hba.
  apply float_lt_asym in Hlt as Hnlt.
  unfold float_lt, float_le, SFltb, SFleb in *.
  rewrite (SFcompare_swap a b) in Hba.
  destruct (SFcompare a b) as [[]|]; simpl in *; congruence.
Qed.

Lemma float_gt_le_not_eq (a b c : float) :
  float_gt a b = true → float_le c b = true → float_eq a c = false.
Proof.
  unfold float_gt. intros Hlt Hle.
  destruct (float_eq a c) eqn:Heq; [|reflexivity].
  pose proof (float_le_trans a c b (float_eq_le a c Heq) Hle) as Hab.
  unfold float_lt, float_le, SFltb, SFleb in *.
  rewrite (SFcompare_swap a b) in Hlt.
  destruct (SFcompare a b) as [[]|]; simpl in *; congruence.
Qed.

Lemma float_eq_nan_l (a b : float) : is_nan a = true → float_eq a b = false.
Proof. destruct a; try discriminate. reflexivity. Qed.

Lemma float_lt_nan_l (a b : float) : is_nan a = true → float_lt a b = false.
Proof. destruct a; try discriminate. reflexivity. Qed.

Lemma float_lt_nan_r (a b : float) : is_nan b = true → float_lt a b = false.
Proof. destruct b; try discriminate. now destruct a. Qed.

Lemma len_app {A} (l k : list A) : len (l ++ k) = len l + len k.
Proof. unfold len. rewrite length_app. lia. Qed.

(** Records older than the window do not reach the stages. *)
Lemma py_slice_window_app {A} (l older : list A) (weeks : Z) :
  0 <= weeks <= len l →
  py_slice (l ++ older) None (Some (Z.min weeks (len (l ++ older))))
  = py_slice l None (Some (Z.min weeks (len l))).
Proof.
  intros Hw. rewrite !py_slice_window by lia.
  pose proof (len_nonneg older).
  replace (Z.to_nat (Z.min weeks (len (l ++ older)))) with (Z.to_nat weeks)
    by (rewrite len_app; lia).
  replace (Z.to_nat (Z.min weeks (len l))) with (Z.to_nat weeks) by lia.
  apply take_app_le. unfold len in Hw. lia.
Qed.

(** X10.  Records older than both windows do not change the outcome:
    appending records to a Series of at least 2 records that already
    fills the divergence window and the extreme window leaves the result,
    or the exception, as it is. *)
Theorem detector_ignores_older_records (data older : list PositionRecord)
    (D E : Z) :
  2 <= len data → 0 <= D <= len data → 0 <= E <= len data →
  detect_signals (data ++ older) D E = detect_signals data D E.
Proof.
  intros Hlen HD HE. rewrite !detect_signals_stages.
  pose proof (len_nonneg older).
  replace (len (data ++ older) <? 2) with false by (rewrite len_app; lia).
  replace (len data <? 2) with false by lia.
  destruct data as [|current rest]; [unfold len in Hlen; simpl in Hlen; lia|].
  assert (He : extreme_flags ((current :: rest) ++ older) E
               = extreme_flags (current :: rest) E).
  { unfold extreme_flags. now rewrite py_slice_window_app. }
  assert (Hd : divergence_flags ((current :: rest) ++ older) D
               = divergence_flags (current :: rest) D).
  { unfold divergence_flags. now rewrite py_slice_window_app. }
  now rewrite He, Hd.
Qed.

Lemma detector_ignores_older_records_witness :
  detect_signals (rising_floor_27 ++ scenario_C) 27 27
  = detect_signals rising_floor_27 27 27.
Proof.
  apply (detector_ignores_older_records rising_floor_27 scenario_C 27 27);
    vm_compute; try split; congruence.
Defined.

(** X11.  When the net position of the newest record is NaN, every
    result [detect_signals] returns on a Series of at least 2 records has
    the four flags false and the status NEUTRAL: no comparison with a NaN
    holds. *)
Theorem detector_nan_is_neutral (data : list PositionRecord) (D E : Z)
    (current : PositionRecord) (r : SignalResult) :
  2 <= len data →
  head data = Some current →
  is_nan (hf_net current) = true →
  detect_signals data D E = Ok r →
  r !! "bullish_divergence" = Some (PyBool false) ∧
  r !! "bearish_divergence" = Some (PyBool false) ∧
  r !! "extreme_bullish" = Some (PyBool false) ∧
  r !! "extreme_bearish" = Some (PyBool false) ∧
  r !! "status" = Some (PyStr "NEUTRAL").
Proof.
  intros Hlen Hhead Hnan H.
  apply detect_signals_Ok in H as [[Hlt _]|[_ H]]; [lia|].
  destruct H as (cur & bd & sd & eb & es & Hcur & He & Hd & ->).
  destruct data as [|c rest]; [discriminate|].
  injection Hhead as ->. rewrite py_index_0 in Hcur. injection Hcur as <-.
  apply divergence_flags_Ok in Hd. cbv zeta in Hd.
  destruct Hd as (cur & rl & ol & rh & oh & last & Hcur & _ & _ & _ & _ & _
                  & Hbd & Hsd).
  rewrite py_index_0 in Hcur. injection Hcur as <-.
  rewrite (float_lt_nan_l _ last Hnan), andb_false_r in Hbd.
  change (float_gt (hf_net current) last)
    with (float_lt last (hf_net current)) in Hsd.
  rewrite (float_lt_nan_r last _ Hnan), andb_false_r in Hsd.
  unfold extreme_flags in He. rewrite py_index_0 in He.
  cbn [mbind result_bind] in He.
  apply bind_Ok in He as (lo & _ & He). apply bind_Ok in He as (hi & _ & He).
  rewrite !(float_eq_nan_l _ _ Hnan) in He.
  injection He as <- <-. subst bd sd. repeat split; reflexivity.
Qed.

Lemma detector_nan_is_neutral_witness :
  ∃ r, detect_signals nan_series 52 156 = Ok r ∧
       r !! "status" = Some (PyStr "NEUTRAL").
Proof.
  destruct (detect_signals_returns nan_series 52 156) as [r Hr];
    [vm_compute; congruence | lia | lia |].
  exists r. split; [exact Hr|].
  eapply (detector_nan_is_neutral nan_series 52 156 _ r);
    [vm_compute; congruence | reflexivity | reflexivity | exact Hr].
Defined.

(** The extreme flags of a result, from the bounds of the window. *)
Lemma detect_signals_extremes (data : list PositionRecord) (D E : Z)
    (r : SignalResult) :
  2 <= len data → 1 <= E →
  detect_signals data D E = Ok r →
  let window := hf_net <$> take (Z.to_nat (Z.min E (len data))) data in
  ∃ current lo hi eb es bd sd,
    head data = Some current ∧
    hf_net current ∈ window ∧
    py_min window = Ok lo ∧ py_max window = Ok hi ∧
    eb = float_eq (hf_net current) lo ∧
    es = float_eq (hf_net current) hi ∧
    divergence_flags data D = Ok (bd, sd) ∧
    r = signal_result current bd sd eb es.
Proof.
  intros Hlen HE H window.
  apply detect_signals_Ok in H as [[Hlt _]|[_ H]]; [lia|].
  destruct H as (cur & bd & sd & eb & es & Hcur & He & Hd & ->).
  destruct data as [|current rest]; [discriminate|].
  rewrite py_index_0 in Hcur. injection Hcur as <-.
  destruct (extreme_flags_window current rest E HE) as (lo & hi & Hlo & Hhi & He').
  rewrite He in He'. injection He' as -> ->.
  exists current, lo, hi, (float_eq (hf_net current) lo),
    (float_eq (hf_net current) hi), bd, sd.
  repeat split; try assumption.
  subst window. rewrite len_cons. pose proof (len_nonneg rest).
  destruct (Z.to_nat (Z.min E (len rest + 1))) eqn:Hn; [lia|].
  simpl. apply list_elem_of_here.
Qed.

(** X12.  On a Series of at least 2 records whose extreme window holds
    no NaN, a result has [extreme_bullish] and [extreme_bearish] both true
    exactly when every net position of the window equals the current
    one. *)
Theorem detector_both_extremes_iff_flat (data : list PositionRecord)
    (D E : Z) (current : PositionRecord) (r : SignalResult) :
  2 <= len data → 1 <= E →
  head data = Some current →
  let window := hf_net <$> take (Z.to_nat (Z.min E (len data))) data in
  Forall (λ y, is_nan y = false) window →
  detect_signals data D E = Ok r →
  (r !! "extreme_bullish" = Some (PyBool true) ∧
   r !! "extreme_bearish" = Some (PyBool true)) ↔
  ∀ y, y ∈ window → float_eq (hf_net current) y = true.
Proof.
  intros Hlen HE Hhead window Hnan H.
  destruct (detect_signals_extremes data D E r Hlen HE H)
    as (cur & lo & hi & eb & es & bd & sd & Hhead' & Hin & Hlo & Hhi
        & -> & -> & _ & ->).
  fold window in Hin, Hlo, Hhi.
  rewrite Hhead in Hhead'. injection Hhead' as <-.
  pose proof (py_min_lower_bound window lo Hnan Hlo) as Hlb.
  pose proof (py_max_upper_bound window hi Hnan Hhi) as Hub.
  rewrite Forall_forall in Hlb, Hub.
  change (signal_result current bd sd (float_eq (hf_net current) lo)
            (float_eq (hf_net current) hi) !! "extreme_bullish")
    with (Some (PyBool (float_eq (hf_net current) lo))).
  change (signal_result current bd sd (float_eq (hf_net current) lo)
            (float_eq (hf_net current) hi) !! "extreme_bearish")
    with (Some (PyBool (float_eq (hf_net current) hi))).
  split.
  - intros [[= Hb] [= Hs]] y Hy. apply float_le_antisym.
    + apply (float_le_trans _ lo); [now apply float_eq_le | now apply Hlb].
    + apply (float_le_trans _ hi); [now apply Hub|].
      apply float_eq_le. now rewrite float_eq_sym.
  - intros Hflat. split; do 2 f_equal; apply Hflat.
    + now apply py_min_elem.
    + now apply py_max_elem.
Qed.

Lemma detector_both_extremes_iff_flat_witness :
  ∃ r, detect_signals flat_series 52 156 = Ok r ∧
       r !! "extreme_bullish" = Some (PyBool true) ∧
       r !! "extreme_bearish" = Some (PyBool true) ∧
       r !! "status" = Some (PyStr "⚠️ EXTREME BULLISH").
Proof.
  set (r := signal_result (week 4) false false true true).
  assert (Hr : detect_signals flat_series 52 156 = Ok r)
    by (apply detect_signals_eval; vm_compute; congruence).
  exists r. split; [exact Hr|].
  assert (Hlen : 2 <= len flat_series) by (vm_compute; congruence).
  assert (HE : 1 <= 156) by lia.
  assert (Hnan : Forall (λ y, is_nan y = false)
                   (hf_net <$> take (Z.to_nat (Z.min 156 (len flat_series)))
                                 flat_series))
    by (vm_compute; repeat constructor).
  destruct (proj2 (detector_both_extremes_iff_flat flat_series 52 156 (week 4) r
                     Hlen HE eq_refl Hnan Hr)) as [Hb Hs].
  - intros y Hy. apply list_elem_of_In in Hy. vm_compute in Hy.
    repeat (destruct Hy as [<-|Hy]; [reflexivity|]). destruct Hy.
  - split; [exact Hb|]. split; [exact Hs | reflexivity].
Defined.

(** X13.  When the extreme window is at least as long as the divergence
    window (as with the defaults 156 and 52) and holds no NaN, a result
    never has [bullish_divergence] together with [extreme_bearish], nor
    [bearish_divergence] together with [extreme_bullish]: the window's
    last record, which the current net must be strictly below or above,
    lies in the extreme window. *)
Theorem divergence_excludes_opposite_extreme (data : list PositionRecord)
    (D E : Z) (r : SignalResult) :
  0 <= D <= E →
  Forall (λ y, is_nan y = false)
    (hf_net <$> take (Z.to_nat (Z.min E (len data))) data) →
  detect_signals data D E = Ok r →
  (r !! "bullish_divergence" = Some (PyBool true) →
   r !! "extreme_bearish" = Some (PyBool false)) ∧
  (r !! "bearish_divergence" = Some (PyBool true) →
   r !! "extreme_bullish" = Some (PyBool false)).
Proof.
  intros HDE Hnan H.
  destruct (Z.lt_ge_cases (len data) 2) as [Hlt|Hlen].
  { apply detect_signals_Ok in H as [[_ ->]|[Hge _]]; [|lia].
    split; intros _; reflexivity. }
  destruct (Z.le_gt_cases E 0) as [HE0|HE].
  { assert (E = 0 ∧ D = 0) as [-> ->] by lia.
    rewrite (detect_signals_narrow_raises data 0 0) in H;
      [discriminate | assumption |].
    rewrite py_slice_window by lia. unfold len. rewrite length_take. lia. }
  destruct (detect_signals_extremes data D E r Hlen ltac:(lia) H)
    as (cur & lo & hi & eb & es & bd & sd & Hhead & Hin & Hlo & Hhi
        & -> & -> & Hd & ->).
  set (window := hf_net <$> take (Z.to_nat (Z.min E (len data))) data) in *.
  pose proof (py_min_lower_bound window lo Hnan Hlo) as Hlb.
  pose proof (py_max_upper_bound window hi Hnan Hhi) as Hub.
  rewrite Forall_forall in Hlb, Hub.
  apply divergence_flags_Ok in Hd. cbv zeta in Hd.
  destruct Hd as (cur' & rl & ol & rh & oh & last & Hcur' & _ & _ & _ & _
                  & Hlast & -> & ->).
  assert (cur' = cur) as ->.
  { destruct data; [discriminate|]. rewrite py_index_0 in Hcur'.
    injection Hhead as <-. now injection Hcur' as <-. }
  assert (Hlast_in : last ∈ window).
  { apply py_index_elem in Hlast. rewrite py_slice_window in Hlast by lia.
    subst window.
    replace (Z.to_nat (Z.min D (len data)))
      with (Nat.min (Z.to_nat (Z.min D (len data)))
              (Z.to_nat (Z.min E (len data)))) in Hlast by lia.
    rewrite <- take_take, fmap_take in Hlast.
    eapply subseteq_take, Hlast. }
  split; intros Hflag.
  - change (Some (PyBool (float_gt rl ol && float_lt (hf_net cur) last))
            = Some (PyBool true)) in Hflag.
    injection Hflag as Hflag. apply andb_true_iff in Hflag as [_ Hlt].
    change (Some (PyBool (float_eq (hf_net cur) hi)) = Some (PyBool false)).
    do 2 f_equal. apply (float_lt_le_not_eq _ last); [assumption|].
    now apply Hub.
  - change (Some (PyBool (float_lt rh oh && float_gt (hf_net cur) last))
            = Some (PyBool true)) in Hflag.
    injection Hflag as Hflag. apply andb_true_iff in Hflag as [_ Hgt].
    change (Some (PyBool (float_eq (hf_net cur) lo)) = Some (PyBool false)).
    do 2 f_equal. apply (float_gt_le_not_eq _ last); [assumption|].
    now apply Hlb.
Qed.

Lemma divergence_excludes_opposite_extreme_witness :
  ∃ r, detect_signals rising_floor_27 52 156 = Ok r ∧
       r !! "bullish_divergence" = Some (PyBool true) ∧
       r !! "extreme_bearish" = Some (PyBool false).
Proof.
  set (r := signal_result (week 1) true false true false).
  assert (Hr : detect_signals rising_floor_27 52 156 = Ok r)
    by (apply detect_signals_eval; vm_compute; congruence).
  exists r. split; [exact Hr|].
  assert (Hb : r !! "bullish_divergence" = Some (PyBool true)) by reflexivity.
  split; [exact Hb|].
  refine (proj1 (divergence_excludes_opposite_extreme rising_floor_27 52 156 r
                   _ _ Hr) Hb).
  - lia.
  - vm_compute. repeat constructor.
Defined.

(** * Properties of the callers *)

(** The entries of a result that the callers read, and the two keys that
    no result has. *)
Lemma detect_signals_entries (data : list PositionRecord) (D E : Z)
    (signals : SignalResult) :
  detect_signals data D E = Ok signals →
  (∃ status, signals !! "status" = Some (PyStr status)) ∧
  is_Some (signals !! "current_net") ∧
  signals !! "asset_code" = None ∧
  signals !! "asset_name" = None.
Proof.
  intros H. apply detect_signals_Ok in H as [[_ ->]|[_ H]].
  - repeat split; try reflexivity; eexists; reflexivity.
  - destruct H as (current & bd & sd & eb & es & _ & _ & _ & ->).
    repeat split; try reflexivity; eexists; reflexivity.
Qed.

Section CallersProperties.

Variable float_of_str : string → option float.
Variable fetch_cot_data : string → Z → option (list raw_record).

(** [analyze_asset] on a complete configuration. *)
Lemma analyze_asset_configured (asset_code name contract_name : string)
    (asset_config : gmap string string) (lookback_config : gmap string Z)
    (D E : Z) :
  asset_config !! "name" = Some name →
  asset_config !! "contract_name" = Some contract_name →
  lookback_config !! "divergence_weeks" = Some D →
  lookback_config !! "extreme_weeks" = Some E →
  analyze_asset float_of_str fetch_cot_data asset_code asset_config
    lookback_config
  = processed ← calculate_net_positions float_of_str
                  (default [] (fetch_cot_data contract_name E));
    match processed with
    | [] => Ok None
    | _ =>
        signals ← detect_signals processed D E;
        Ok (Some (signals ∪
                  list_to_map
                    [ ("asset_code", PyStr asset_code);
                      ("asset_name", PyStr name) ]))
    end.
Proof.
  intros Hname Hcontract HD HE. unfold analyze_asset, config_item.
  rewrite Hname, Hcontract, HE, HD. cbn [mbind result_bind].
  destruct (fetch_cot_data contract_name E) as [[|record data]|];
    [reflexivity | | reflexivity].
  change (default [] (Some (record :: data))) with (record :: data).
  destruct (calculate_net_positions float_of_str (record :: data))
    as [[|p processed]|e]; [reflexivity | | reflexivity].
  cbn [mbind result_bind].
  destruct (detect_signals (p :: processed) D E) as [signals|e] eqn:Hs;
    [|reflexivity].
  cbn [mbind result_bind].
  apply detect_signals_entries in Hs as ([st Hst] & [net Hnet] & _).
  unfold dict_item. now rewrite Hst, Hnet.
Qed.

(** What an analysis holds. *)
Lemma analyze_asset_Some (asset_code : string)
    (asset_config : gmap string string) (lookback_config : gmap string Z)
    (analysis : gmap string pyval) :
  analyze_asset float_of_str fetch_cot_data asset_code asset_config
    lookback_config = Ok (Some analysis) →
  ∃ name contract_name D E data processed signals,
    asset_config !! "name" = Some name ∧
    asset_config !! "contract_name" = Some contract_name ∧
    lookback_config !! "divergence_weeks" = Some D ∧
    lookback_config !! "extreme_weeks" = Some E ∧
    fetch_cot_data contract_name E = Some data ∧
    calculate_net_positions float_of_str data = Ok processed ∧
    processed ≠ [] ∧
    detect_signals processed D E = Ok signals ∧
    analysis = signals ∪ list_to_map
                 [ ("asset_code", PyStr asset_code);
                   ("asset_name", PyStr name) ].
Proof.
  unfold analyze_asset, config_item. intros H.
  destruct (asset_config !! "name") as [name|] eqn:Hname; [|discriminate].
  destruct (asset_config !! "contract_name") as [contract_name|] eqn:Hc;
    [|discriminate].
  destruct (lookback_config !! "extreme_weeks") as [E|] eqn:HE; [|discriminate].
  cbn [mbind result_bind] in H.
  destruct (fetch_cot_data contract_name E) as [[|record data]|] eqn:Hf;
    try discriminate.
  apply bind_Ok in H as (processed & Hp & H).
  destruct processed as [|p processed]; [discriminate|].
  destruct (lookback_config !! "divergence_weeks") as [D|] eqn:HD;
    [|discriminate].
  cbn [mbind result_bind] in H.
  apply bind_Ok in H as (signals & Hs & H).
  apply bind_Ok in H as (? & _ & H). apply bind_Ok in H as (? & _ & H).
  injection H as <-.
  exists name, contract_name, D, E, (record :: data), (p :: processed), signals.
  repeat split; try assumption; try reflexivity. discriminate.
Qed.

(** The entries of an analysis. *)
Lemma analyze_asset_entries (asset_code : string)
    (asset_config : gmap string string) (lookback_config : gmap string Z)
    (analysis : gmap string pyval) :
  analyze_asset float_of_str fetch_cot_data asset_code asset_config
    lookback_config = Ok (Some analysis) →
  analysis !! "asset_code" = Some (PyStr asset_code) ∧
  (∃ status, analysis !! "status" = Some (PyStr status)) ∧
  is_Some (analysis !! "current_net") ∧
  size analysis ≠ 0%nat.
Proof.
  intros H. apply analyze_asset_Some in H
    as (name & cn & D & E & data & processed & signals & _ & _ & _ & _ & _ & _
        & _ & Hs & ->).
  apply detect_signals_entries in Hs as ([st Hst] & [net Hnet] & Hcode & _).
  assert (Hac : (signals ∪ (list_to_map
                   [ ("asset_code", PyStr asset_code);
                     ("asset_name", PyStr name) ] : gmap string pyval))
                !! "asset_code" = Some (PyStr asset_code)).
  { rewrite lookup_union_r by assumption. reflexivity. }
  split; [exact Hac|]. split; [|split].
  - exists st. now apply lookup_union_Some_l.
  - exists net. now apply lookup_union_Some_l.
  - apply (map_size_ne_0_lookup_2 _ "asset_code"). rewrite Hac. eauto.
Qed.

End CallersProperties.

Section LoopProperties.

Variable float_of_str : string → option float.
Variable fetch_cot_data : string → Z → option (list raw_record).

Local Abbreviation loop := (analyze_assets float_of_str fetch_cot_data).

(** The entry of [active_signals] for an analysis. *)
Lemma active_signal_Ok (asset_code name : string)
    (asset_config : gmap string string) (analysis : gmap string pyval)
    (status net : pyval) :
  asset_config !! "name" = Some name →
  analysis !! "status" = Some status →
  analysis !! "current_net" = Some net →
  active_signal asset_code asset_config analysis
  = Ok (list_to_map
          [ ("asset", PyStr (name ++ " (" ++ asset_code ++ ")"));
            ("signal", status);
            ("net_position", net) ]).
Proof.
  intros Hname Hstatus Hnet. unfold active_signal, config_item, dict_item.
  now rewrite Hname, Hstatus, Hnet.
Qed.

(** The loop treats a concatenation of asset lists part by part. *)
Lemma analyze_assets_app (pre post : list (string * gmap string string))
    (lookback_config : gmap string Z)
    (results active : list (gmap string pyval)) :
  loop (pre ++ post) lookback_config results active
  = match loop pre lookback_config results active with
    | Ok (results', active') => loop post lookback_config results' active'
    | Raise e => Raise e
    end.
Proof.
  revert results active.
  induction pre as [|[code cfg] pre IH]; intros results active; [reflexivity|].
  simpl.
  destruct (analyze_asset _ _ code cfg lookback_config) as [[a|]|e];
    cbn [mbind result_bind]; [| apply IH | reflexivity].
  destruct (decide (size a = 0%nat)); [apply IH|].
  destruct (dict_item a "status") as [status|e]; cbn [mbind result_bind];
    [|reflexivity].
  destruct (py_ne_str status "NEUTRAL"); [|apply IH].
  destruct (active_signal code cfg a); cbn [mbind result_bind];
    [apply IH | reflexivity].
Qed.

(** What the loop appends to the two lists. *)
Lemma analyze_assets_appends (assets : list (string * gmap string string))
    (lookback_config : gmap string Z)
    (results active results' active' : list (gmap string pyval)) :
  loop assets lookback_config results active = Ok (results', active') →
  ∃ rs sigs,
    results' = results ++ rs ∧ active' = active ++ sigs ∧
    (length sigs ≤ length rs ≤ length assets)%nat ∧
    omap (λ s : gmap string pyval, s !! "signal") sigs
    = filter (λ v, py_ne_str v "NEUTRAL" = true)
        (omap (λ a : gmap string pyval, a !! "status") rs) ∧
    omap (λ a : gmap string pyval, a !! "asset_code") rs
      `sublist_of` ((λ asset, PyStr asset.1) <$> assets) ∧
    Forall (λ a : gmap string pyval, is_Some (a !! "status")) rs.
Proof.
  revert results active results' active'.
  induction assets as [|[code cfg] assets IH];
    intros results active results' active'; simpl.
  { intros [= <- <-]. exists [], []. rewrite !app_nil_r.
    repeat split; simpl; try lia; constructor. }
  destruct (analyze_asset _ _ code cfg lookback_config) as [[a|]|e] eqn:Ha;
    cbn [mbind result_bind]; [| | discriminate].
  2:{ intros H.
      destruct (IH _ _ _ _ H) as (rs & sigs & -> & -> & Hlen & Hsig & Hsub & Hst).
      exists rs, sigs. repeat split; try assumption; try lia.
      now apply sublist_cons. }
  pose proof (analyze_asset_entries _ _ _ _ _ _ Ha)
    as (Hcode & [st Hstatus] & [net Hnet] & Hsize).
  apply analyze_asset_Some in Ha
    as (name & _ & _ & _ & _ & _ & _ & Hname & _).
  destruct (decide (size a = 0%nat)); [contradiction|].
  unfold dict_item at 1. rewrite Hstatus. cbn [mbind result_bind].
  destruct (py_ne_str (PyStr st) "NEUTRAL") eqn:Hne.
  - rewrite (active_signal_Ok code name cfg a _ _ Hname Hstatus Hnet).
    cbn [mbind result_bind].
    set (sig := list_to_map _ : gmap string pyval). intros H.
    destruct (IH _ _ _ _ H) as (rs & sigs & -> & -> & Hlen & Hsig & Hsub & Hst).
    exists (a :: rs), (sig :: sigs). rewrite <- !app_assoc.
    split; [reflexivity|]. split; [reflexivity|].
    split; [simpl; lia|]. split; [|split].
    + cbn [omap list_omap]. rewrite Hstatus.
      change (sig !! "signal") with (Some (PyStr st)).
      rewrite filter_cons_True by assumption.
      f_equal. exact Hsig.
    + cbn [omap list_omap]. rewrite Hcode. simpl. now constructor.
    + constructor; eauto.
  - intros H.
    destruct (IH _ _ _ _ H) as (rs & sigs & -> & -> & Hlen & Hsig & Hsub & Hst).
    exists (a :: rs), sigs. rewrite <- !app_assoc.
    split; [reflexivity|]. split; [reflexivity|].
    split; [simpl; lia|]. split; [|split].
    + cbn [omap list_omap]. rewrite Hstatus.
      rewrite filter_cons_False by (rewrite Hne; discriminate). exact Hsig.
    + cbn [omap list_omap]. rewrite Hcode. simpl. now constructor.
    + constructor; eauto.
Qed.

End LoopProperties.

(** X14.  On a complete configuration, [analyze_asset] returns [None]
    exactly when the provider fails or when no record is left after
    normalization (no record was sent, or every record was left out). *)
Theorem analyze_asset_none_iff (float_of_str : string → option float)
    (fetch_cot_data : string → Z → option (list raw_record))
    (asset_code name contract_name : string)
    (asset_config : gmap string string) (lookback_config : gmap string Z)
    (D E : Z) :
  asset_config !! "name" = Some name →
  asset_config !! "contract_name" = Some contract_name →
  lookback_config !! "divergence_weeks" = Some D →
  lookback_config !! "extreme_weeks" = Some E →
  analyze_asset float_of_str fetch_cot_data asset_code asset_config
    lookback_config = Ok None ↔
  fetch_cot_data contract_name E = None ∨
  ∃ data, fetch_cot_data contract_name E = Some data ∧
          calculate_net_positions float_of_str data = Ok [].
Proof.
  intros Hname Hcontract HD HE.
  rewrite (analyze_asset_configured float_of_str fetch_cot_data asset_code
             name contract_name asset_config lookback_config D E)
    by assumption.
  destruct (fetch_cot_data contract_name E) as [data|].
  - change (default [] (Some data)) with data.
    destruct (calculate_net_positions float_of_str data)
      as [[|p processed]|e] eqn:Hcalc; cbn [mbind result_bind].
    + split; [intros _; right; eauto | reflexivity].
    + split.
      * destruct (detect_signals (p :: processed) D E); discriminate.
      * intros [H|(data' & [= <-] & H)]; [discriminate H|].
        rewrite Hcalc in H. discriminate H.
    + split; [discriminate|].
      intros [H|(data' & [= <-] & H)]; [discriminate H|].
      rewrite Hcalc in H. discriminate H.
  - split; [intros _; now left | reflexivity].
Qed.

Lemma analyze_asset_none_iff_witness :
  analyze_asset float_of_digits provider "EUR" ether_config default_lookback
  ≠ Ok None ∧
  analyze_asset float_of_digits provider "XYZ" unknown_config
    default_lookback = Ok None.
Proof.
  split.
  - intros H.
    apply (analyze_asset_none_iff float_of_digits provider "EUR" "Ethereum"
             "ETHER CASH SETTLED" ether_config default_lookback 52 156
             eq_refl eq_refl eq_refl eq_refl) in H.
    destruct H as [H|(data & H & Hcalc)]; [discriminate H|].
    injection H as <-. vm_compute in Hcalc. discriminate Hcalc.
  - apply (analyze_asset_none_iff float_of_digits provider "XYZ" "Unknown"
             "UNKNOWN" unknown_config default_lookback 52 156
             eq_refl eq_refl eq_refl eq_refl).
    left. reflexivity.
Defined.

(** X15.  An analysis that [analyze_asset] returns holds the asset's code
    and name under [asset_code] and [asset_name], and every entry of the
    result of [detect_signals] on the normalized data, unchanged. *)
Theorem analysis_keeps_signals (float_of_str : string → option float)
    (fetch_cot_data : string → Z → option (list raw_record))
    (asset_code : string) (asset_config : gmap string string)
    (lookback_config : gmap string Z) (analysis : gmap string pyval) :
  analyze_asset float_of_str fetch_cot_data asset_code asset_config
    lookback_config = Ok (Some analysis) →
  ∃ name contract_name D E data processed signals,
    asset_config !! "name" = Some name ∧
    asset_config !! "contract_name" = Some contract_name ∧
    lookback_config !! "divergence_weeks" = Some D ∧
    lookback_config !! "extreme_weeks" = Some E ∧
    fetch_cot_data contract_name E = Some data ∧
    calculate_net_positions float_of_str data = Ok processed ∧
    detect_signals processed D E = Ok signals ∧
    analysis !! "asset_code" = Some (PyStr asset_code) ∧
    analysis !! "asset_name" = Some (PyStr name) ∧
    ∀ key, key ≠ "asset_code" → key ≠ "asset_name" →
           analysis !! key = signals !! key.
Proof.
  intros H. apply analyze_asset_Some in H
    as (name & cn & D & E & data & processed & signals & Hname & Hcn & HD & HE
        & Hf & Hp & _ & Hs & ->).
  exists name, cn, D, E, data, processed, signals.
  repeat split; try assumption.
  - apply detect_signals_entries in Hs as (_ & _ & Hcode & _).
    now rewrite lookup_union_r.
  - apply detect_signals_entries in Hs as (_ & _ & _ & Hn).
    now rewrite lookup_union_r.
  - intros key Hk1 Hk2. apply lookup_union_l.
    unfold list_to_map. cbn [fold_right fst snd].
    now rewrite !lookup_insert_ne, lookup_empty by congruence.
Qed.

Lemma analysis_keeps_signals_witness :
  ∃ analysis,
    analyze_asset float_of_digits provider "NQ" nasdaq_config default_lookback
    = Ok (Some analysis) ∧
    analysis !! "asset_code" = Some (PyStr "NQ") ∧
    analysis !! "asset_name" = Some (PyStr "Nasdaq 100").
Proof.
  set (analysis := insufficient_data ∪
         (list_to_map [ ("asset_code", PyStr "NQ");
                        ("asset_name", PyStr "Nasdaq 100") ]
            : gmap string pyval)).
  assert (H : analyze_asset float_of_digits provider "NQ" nasdaq_config
                default_lookback = Ok (Some analysis)).
  { rewrite (analyze_asset_configured float_of_digits provider "NQ"
               "Nasdaq 100" "NASDAQ MINI" nasdaq_config default_lookback 52 156)
      by reflexivity.
    reflexivity. }
  exists analysis. split; [exact H|].
  destruct (analysis_keeps_signals float_of_digits provider "NQ" nasdaq_config
              default_lookback analysis H)
    as (name & cn & D & E & data & processed & signals & Hname & _ & _ & _ & _
        & _ & _ & Hcode & Hn & _).
  split; [exact Hcode|]. rewrite Hn. injection Hname as <-. reflexivity.
Defined.

(** X16.  A configuration without the asset's [name] or [contract_name],
    or without [extreme_weeks], makes [analyze_asset] raise [KeyError]
    whatever the provider has; one that lacks only [divergence_weeks]
    raises [KeyError] when a record is left after normalization, and
    returns [None] as usual when none is. *)
Theorem analyze_asset_missing_keys (float_of_str : string → option float)
    (fetch_cot_data : string → Z → option (list raw_record))
    (asset_code : string) (asset_config : gmap string string)
    (lookback_config : gmap string Z) :
  (asset_config !! "name" = None ∨
   asset_config !! "contract_name" = None ∨
   lookback_config !! "extreme_weeks" = None →
   analyze_asset float_of_str fetch_cot_data asset_code asset_config
     lookback_config = Raise KeyError) ∧
  (∀ name contract_name E,
     asset_config !! "name" = Some name →
     asset_config !! "contract_name" = Some contract_name →
     lookback_config !! "extreme_weeks" = Some E →
     lookback_config !! "divergence_weeks" = None →
     analyze_asset float_of_str fetch_cot_data asset_code asset_config
       lookback_config
     = processed ← calculate_net_positions float_of_str
                     (default [] (fetch_cot_data contract_name E));
       match processed with
       | [] => Ok None
       | _ => Raise KeyError
       end).
Proof.
  split.
  - unfold analyze_asset, config_item. intros [H|[H|H]].
    + now rewrite H.
    + rewrite H. now destruct (asset_config !! "name").
    + rewrite H. destruct (asset_config !! "name"); [|reflexivity].
      now destruct (asset_config !! "contract_name").
  - intros name cn E Hname Hcn HE HD. unfold analyze_asset, config_item.
    rewrite Hname, Hcn, HE, HD. cbn [mbind result_bind].
    destruct (fetch_cot_data cn E) as [[|record data]|];
      [reflexivity | | reflexivity].
    change (default [] (Some (record :: data))) with (record :: data).
    now destruct (calculate_net_positions float_of_str (record :: data))
      as [[|p processed]|e].
Qed.

(** X17.  An asset for which a single record is left after normalization
    is analysed with the status INSUFFICIENT_DATA, and the loop of [main]
    lists it among the active signals, with the net position 0. *)
Theorem single_week_is_active_signal (float_of_str : string → option float)
    (fetch_cot_data : string → Z → option (list raw_record))
    (asset_code name contract_name : string)
    (asset_config : gmap string string) (lookback_config : gmap string Z)
    (D E : Z) (data : list raw_record) (p : PositionRecord) :
  asset_config !! "name" = Some name →
  asset_config !! "contract_name" = Some contract_name →
  lookback_config !! "divergence_weeks" = Some D →
  lookback_config !! "extreme_weeks" = Some E →
  fetch_cot_data contract_name E = Some data →
  calculate_net_positions float_of_str data = Ok [p] →
  ∃ analysis signal,
    analyze_assets float_of_str fetch_cot_data
      [(asset_code, asset_config)] lookback_config [] []
    = Ok ([analysis], [signal]) ∧
    analysis !! "status" = Some (PyStr "INSUFFICIENT_DATA") ∧
    signal !! "signal" = Some (PyStr "INSUFFICIENT_DATA") ∧
    signal !! "asset" = Some (PyStr (name ++ " (" ++ asset_code ++ ")")) ∧
    signal !! "net_position" = Some (PyInt 0).
Proof.
  intros Hname Hcn HD HE Hf Hp.
  set (analysis := insufficient_data ∪
         (list_to_map [ ("asset_code", PyStr asset_code);
                        ("asset_name", PyStr name) ] : gmap string pyval)).
  assert (Ha : analyze_asset float_of_str fetch_cot_data asset_code
                 asset_config lookback_config = Ok (Some analysis)).
  { rewrite (analyze_asset_configured float_of_str fetch_cot_data asset_code
               name contract_name asset_config lookback_config D E)
      by assumption.
    rewrite Hf. change (default [] (Some data)) with data. rewrite Hp.
    cbn [mbind result_bind]. rewrite detect_signals_stages.
    reflexivity. }
  assert (Hstatus : analysis !! "status" = Some (PyStr "INSUFFICIENT_DATA"))
    by (now apply lookup_union_Some_l).
  assert (Hnet : analysis !! "current_net" = Some (PyInt 0))
    by (now apply lookup_union_Some_l).
  exists analysis, (list_to_map
    [ ("asset", PyStr (name ++ " (" ++ asset_code ++ ")"));
      ("signal", PyStr "INSUFFICIENT_DATA");
      ("net_position", PyInt 0) ]).
  split; [|repeat split; reflexivity].
  cbn [analyze_assets]. rewrite Ha. cbn [mbind result_bind].
  destruct (decide (size analysis = 0%nat)) as [Hsize|_].
  { exfalso. revert Hsize. apply (map_size_ne_0_lookup_2 _ "status").
    rewrite Hstatus. eauto. }
  unfold dict_item at 1. rewrite Hstatus. cbn [mbind result_bind].
  change (py_ne_str (PyStr "INSUFFICIENT_DATA") "NEUTRAL") with true.
  cbv iota.
  rewrite (active_signal_Ok asset_code name asset_config analysis _ _
             Hname Hstatus Hnet).
  reflexivity.
Qed.

Lemma single_week_is_active_signal_witness :
  ∃ analysis signal,
    analyze_assets float_of_digits provider [("NQ", nasdaq_config)]
      default_lookback [] []
    = Ok ([analysis], [signal]) ∧
    signal !! "signal" = Some (PyStr "INSUFFICIENT_DATA").
Proof.
  destruct (single_week_is_active_signal float_of_digits provider "NQ"
              "Nasdaq 100" "NASDAQ MINI" nasdaq_config default_lookback 52 156
              [raw "2024-01-16" "120" "20"]
              (normalize float_of_digits (raw "2024-01-16" "120" "20"))
              eq_refl eq_refl eq_refl eq_refl eq_refl)
    as (analysis & signal & H & _ & Hsig & _).
  - vm_compute. reflexivity.
  - exists analysis, signal. auto.
Defined.

(** X18.  When 2 to 26 records are left after normalization for one
    asset, [analyze_asset] raises [ValueError] for it, and the loop of
    [main] raises it too when the assets before have been analysed,
    whatever assets follow: no list of results is produced. *)
Theorem short_history_aborts_run (float_of_str : string → option float)
    (fetch_cot_data : string → Z → option (list raw_record))
    (asset_code name contract_name : string)
    (asset_config : gmap string string) (lookback_config : gmap string Z)
    (D E : Z) (data : list raw_record) (processed : list PositionRecord)
    (pre post : list (string * gmap string string))
    (results active results' active' : list (gmap string pyval)) :
  asset_config !! "name" = Some name →
  asset_config !! "contract_name" = Some contract_name →
  lookback_config !! "divergence_weeks" = Some D →
  lookback_config !! "extreme_weeks" = Some E →
  fetch_cot_data contract_name E = Some data →
  calculate_net_positions float_of_str data = Ok processed →
  2 <= len processed <= 26 →
  analyze_assets float_of_str fetch_cot_data pre lookback_config
    results active = Ok (results', active') →
  analyze_asset float_of_str fetch_cot_data asset_code asset_config
    lookback_config = Raise ValueError ∧
  analyze_assets float_of_str fetch_cot_data
    (pre ++ (asset_code, asset_config) :: post) lookback_config
    results active = Raise ValueError.
Proof.
  intros Hname Hcn HD HE Hf Hp Hlen Hpre.
  assert (Ha : analyze_asset float_of_str fetch_cot_data asset_code
                 asset_config lookback_config = Raise ValueError).
  { rewrite (analyze_asset_configured float_of_str fetch_cot_data asset_code
               name contract_name asset_config lookback_config D E)
      by assumption.
    rewrite Hf. change (default [] (Some data)) with data. rewrite Hp.
    cbn [mbind result_bind].
    destruct processed as [|p processed];
      [unfold len in Hlen; simpl in Hlen; lia|].
    now rewrite detect_signals_short_raises. }
  split; [exact Ha|].
  rewrite analyze_assets_app, Hpre. cbn [analyze_assets]. now rewrite Ha.
Qed.

Lemma short_history_aborts_run_witness :
  analyze_assets float_of_digits provider
    ([("NQ", nasdaq_config)] ++ ("ETH", ether_config) :: [("NQ", nasdaq_config)])
    default_lookback [] []
  = Raise ValueError.
Proof.
  set (analysis := insufficient_data ∪
         (list_to_map [ ("asset_code", PyStr "NQ");
                        ("asset_name", PyStr "Nasdaq 100") ]
            : gmap string pyval)).
  set (signal := list_to_map
         [ ("asset", PyStr "Nasdaq 100 (NQ)");
           ("signal", PyStr "INSUFFICIENT_DATA");
           ("net_position", PyInt 0) ] : gmap string pyval).
  assert (Hpre : analyze_assets float_of_digits provider
                   [("NQ", nasdaq_config)] default_lookback [] []
                 = Ok ([analysis], [signal])) by (vm_compute; reflexivity).
  refine (proj2 (short_history_aborts_run float_of_digits provider "ETH"
                   "Ethereum" "ETHER CASH SETTLED" ether_config
                   default_lookback 52 156 _ _ [("NQ", nasdaq_config)]
                   [("NQ", nasdaq_config)] [] [] [analysis] [signal]
                   eq_refl eq_refl eq_refl eq_refl eq_refl _ _ Hpre)).
  - vm_compute. reflexivity.
  - vm_compute. split; congruence.
Defined.

(** X19.  When the loop of [main] ends, there are at most as many active
    signals as results and at most as many results as configured assets;
    the results are analyses of configured assets, in the order of the
    configuration; every result has a status, and the signals listed are,
    in order, the statuses of the results that differ from NEUTRAL. *)
Theorem main_loop_counts (float_of_str : string → option float)
    (fetch_cot_data : string → Z → option (list raw_record))
    (assets : list (string * gmap string string))
    (lookback_config : gmap string Z)
    (results active_signals : list (gmap string pyval)) :
  analyze_assets float_of_str fetch_cot_data assets lookback_config [] []
  = Ok (results, active_signals) →
  (length active_signals ≤ length results ≤ length assets)%nat ∧
  omap (λ a : gmap string pyval, a !! "asset_code") results
    `sublist_of` ((λ asset, PyStr asset.1) <$> assets) ∧
  Forall (λ a : gmap string pyval, is_Some (a !! "status")) results ∧
  omap (λ s : gmap string pyval, s !! "signal") active_signals
  = filter (λ v, py_ne_str v "NEUTRAL" = true)
      (omap (λ a : gmap string pyval, a !! "status") results).
Proof.
  intros H. apply analyze_assets_appends in H
    as (rs & sigs & -> & -> & Hlen & Hsig & Hsub & Hst).
  simpl. auto.
Qed.

Lemma main_loop_counts_witness :
  ∃ results active_signals,
    analyze_assets float_of_digits provider
      [("XYZ", unknown_config); ("NQ", nasdaq_config)] default_lookback [] []
    = Ok (results, active_signals) ∧
    (length active_signals ≤ length results ≤ 2)%nat.
Proof.
  set (analysis := insufficient_data ∪
         (list_to_map [ ("asset_code", PyStr "NQ");
                        ("asset_name", PyStr "Nasdaq 100") ]
            : gmap string pyval)).
  set (signal := list_to_map
         [ ("asset", PyStr "Nasdaq 100 (NQ)");
           ("signal", PyStr "INSUFFICIENT_DATA");
           ("net_position", PyInt 0) ] : gmap string pyval).
  assert (H : analyze_assets float_of_digits provider
                [("XYZ", unknown_config); ("NQ", nasdaq_config)]
                default_lookback [] []
              = Ok ([analysis], [signal])) by (vm_compute; reflexivity).
  exists [analysis], [signal]. split; [exact H|].
  exact (proj1 (main_loop_counts float_of_digits provider _ _ _ _ H)).
Defined.

Lemma analyze_asset_missing_keys_witness :
  analyze_asset float_of_digits provider "EUR" unnamed_config default_lookback
  = Raise KeyError.
Proof.
  apply (proj1 (analyze_asset_missing_keys float_of_digits provider "EUR"
                  unnamed_config default_lookback)).
  right. left. reflexivity.
Defined.

(** X20.  On a Series of at least 52 records with the divergence window
    of 52 weeks, [detect_signals] returns, and its divergence flags
    compare the 26 newest records of the Series with the 26 records
    before them as follows: [bullish_divergence] is true exactly when the
    minimum of the records 27 to 52 is greater than the minimum of the 26
    newest records and the current net is less than the net of record 52;
    [bearish_divergence] is true exactly when the maximum of the records
    27 to 52 is less than the maximum of the 26 newest records and the
    current net is greater than the net of record 52. *)
Theorem detector_full_window (data : list PositionRecord) (E : Z) :
  52 <= len data → 1 <= E →
  ∃ r current oldest newest_low before_low newest_high before_high,
    detect_signals data 52 E = Ok r ∧
    head data = Some current ∧
    data !! 51%nat = Some oldest ∧
    py_min (hf_net <$> take 26 data) = Ok newest_low ∧
    py_min (hf_net <$> take 26 (drop 26 data)) = Ok before_low ∧
    py_max (hf_net <$> take 26 data) = Ok newest_high ∧
    py_max (hf_net <$> take 26 (drop 26 data)) = Ok before_high ∧
    r !! "bullish_divergence"
    = Some (PyBool (float_gt before_low newest_low
                    && float_lt (hf_net current) (hf_net oldest))) ∧
    r !! "bearish_divergence"
    = Some (PyBool (float_lt before_high newest_high
                    && float_gt (hf_net current) (hf_net oldest))).
Proof.
  intros Hlen HE.
  destruct (detect_signals_returns data 52 E) as [r Hr]; [lia | lia | lia |].
  pose proof Hr as Hr'.
  apply detect_signals_Ok in Hr' as [[Hlt _]|[_ H]]; [lia|].
  destruct H as (cur & bd & sd & eb & es & Hcur & _ & Hd & ->).
  apply divergence_halves_52 in Hd; [|assumption]. cbv zeta in Hd.
  destruct Hd as (current & rl & ol & rh & oh & last & Hhead & Hrl & Hol
                  & Hrh & Hoh & Hlast & -> & ->).
  assert (Hn : len (hf_net <$> take 52 data) = 52).
  { rewrite len_fmap. unfold len in *. rewrite length_take. lia. }
  rewrite <- fmap_drop in Hrl, Hrh. rewrite <- fmap_take in Hol, Hoh.
  rewrite take_take in Hol, Hoh.
  change (52%nat) with (26 + 26)%nat in Hrl, Hrh.
  rewrite <- take_drop_commute in Hrl, Hrh.
  change (26 `min` 52)%nat with 26%nat in Hol, Hoh.
  unfold py_index in Hlast. rewrite Hn in Hlast.
  change (Z.to_nat (if -1 <? 0 then -1 + 52 else -1)) with 51%nat in Hlast.
  change ((if -1 <? 0 then -1 + 52 else -1) <? 0) with false in Hlast.
  rewrite list_lookup_fmap, lookup_take_lt in Hlast by lia.
  destruct (data !! 51%nat) as [oldest|] eqn:Hold; [|discriminate].
  injection Hlast as <-.
  assert (cur = current) as ->.
  { destruct data; [discriminate|]. rewrite py_index_0 in Hcur.
    injection Hhead as <-. now injection Hcur as <-. }
  exists (signal_result current
            (float_gt rl ol && float_lt (hf_net current) (hf_net oldest))
            (float_lt rh oh && float_gt (hf_net current) (hf_net oldest))
            eb es),
    current, oldest, ol, rl, oh, rh.
  repeat split; try assumption; reflexivity.
Qed.

Lemma detector_full_window_witness :
  52 <= len scenario_C ∧ 1 <= 156 ∧
  ∃ r oldest,
    detect_signals scenario_C 52 156 = Ok r ∧
    scenario_C !! 51%nat = Some oldest.
Proof.
  assert (Hlen : 52 <= len scenario_C) by (vm_compute; congruence).
  assert (HE : 1 <= 156) by lia.
  split; [exact Hlen|]. split; [exact HE|].
  destruct (detector_full_window scenario_C 156 Hlen HE)
    as (r & current & oldest & _ & _ & _ & _ & Hr & _ & Hold & _).
  exists r, oldest. auto.
Defined.

(** X21.  For every Series of at least 2 records and every extreme
    window [E] of at least one week, clipped to the length of the Series:
    in every result that [detect_signals] returns, [extreme_bullish] is
    [current_net == min(window)] and [extreme_bearish] is
    [current_net == max(window)], by the equality of floats, where the
    window holds the [hf_net] of the most recent [E] records; a result is
    returned whenever the Series and the divergence window hold at least
    27 records.  A current net that is at least every net of the window
    makes [extreme_bearish] true, one that is at most every net of the
    window makes [extreme_bullish] true, and on a window without NaN the
    converses hold. *)
Theorem detector_extreme_flags (data : list PositionRecord) (E : Z) :
  2 <= len data → 1 <= E →
  ∃ current lo hi,
    let window := hf_net <$> take (Z.to_nat (Z.min E (len data))) data in
    let current_net := hf_net current in
    head data = Some current ∧
    py_min window = Ok lo ∧
    py_max window = Ok hi ∧
    (∀ D r, detect_signals data D E = Ok r →
       r !! "extreme_bullish" = Some (PyBool (float_eq current_net lo)) ∧
       r !! "extreme_bearish" = Some (PyBool (float_eq current_net hi))) ∧
    (∀ D, 27 <= len data → 27 <= D → ∃ r, detect_signals data D E = Ok r) ∧
    ((∀ y, y ∈ window → float_le y current_net = true) →
     float_eq current_net hi = true) ∧
    ((∀ y, y ∈ window → float_le current_net y = true) →
     float_eq current_net lo = true) ∧
    (Forall (λ y, is_nan y = false) window →
     (float_eq current_net hi = true →
      ∀ y, y ∈ window → float_le y current_net = true) ∧
     (float_eq current_net lo = true →
      ∀ y, y ∈ window → float_le current_net y = true)).
Proof.
  intros Hlen HE.
  destruct data as [|current rest]; [unfold len in Hlen; simpl in Hlen; lia|].
  destruct (extreme_flags_window current rest E HE) as (lo & hi & Hlo & Hhi & He).
  exists current, lo, hi. cbv zeta.
  set (window := hf_net <$> take _ (current :: rest)) in *.
  assert (Hin : hf_net current ∈ window).
  { subst window. rewrite len_cons. pose proof (len_nonneg rest).
    destruct (Z.to_nat (Z.min E (len rest + 1))) eqn:Hn; [lia|].
    simpl. apply list_elem_of_here. }
  assert (Hnan_le : ∀ P : float → Prop,
            (∀ y, y ∈ window → P y) → (∀ y, P y → is_nan y = false) →
            Forall (λ y, is_nan y = false) window).
  { intros P HP Hnan. apply Forall_forall. intros y Hy. apply Hnan, HP, Hy. }
  split; [reflexivity|]. split; [assumption|]. split; [assumption|].
  split; [|split; [|split; [|split; [|intros Hnan; split]]]].
  - intros D r Hr. apply detect_signals_Ok in Hr as [[Hlt _]|[_ Hr]]; [lia|].
    destruct Hr as (cur & bd & sd & eb & es & Hcur & He' & _ & ->).
    rewrite He in He'. injection He' as <- <-. split; reflexivity.
  - intros D H27 HD. now apply detect_signals_returns.
  - intros Hub.
    assert (Hnan : Forall (λ y, is_nan y = false) window).
    { apply (Hnan_le _ Hub). intros y Hy. now apply float_le_not_nan in Hy. }
    apply float_le_antisym.
    + pose proof (py_max_upper_bound window hi Hnan Hhi) as Hall.
      rewrite Forall_forall in Hall. now apply Hall.
    + apply Hub. now apply py_max_elem.
  - intros Hlb.
    assert (Hnan : Forall (λ y, is_nan y = false) window).
    { apply (Hnan_le _ Hlb). intros y Hy. now apply float_le_not_nan in Hy. }
    apply float_le_antisym.
    + apply Hlb. now apply py_min_elem.
    + pose proof (py_min_lower_bound window lo Hnan Hlo) as Hall.
      rewrite Forall_forall in Hall. now apply Hall.
  - intros Heq y Hy.
    pose proof (py_max_upper_bound window hi Hnan Hhi) as Hall.
    rewrite Forall_forall in Hall.
    apply (float_le_trans y hi); [now apply Hall|].
    apply float_eq_le. now rewrite float_eq_sym.
  - intros Heq y Hy.
    pose proof (py_min_lower_bound window lo Hnan Hlo) as Hall.
    rewrite Forall_forall in Hall.
    apply (float_le_trans _ lo); [now apply float_eq_le | now apply Hall].
Qed.

(** Scenario D: the current week is the maximum of all 156 weeks, and
    [extreme_bearish] is true in the result. *)
Lemma detector_extreme_flags_witness :
  2 <= len scenario_D ∧ 1 <= 156 ∧
  ∃ r, detect_signals scenario_D 52 156 = Ok r ∧
       r !! "extreme_bearish" = Some (PyBool true).
Proof.
  assert (Hlen : 2 <= len scenario_D) by (vm_compute; congruence).
  assert (HE : 1 <= 156) by lia.
  split; [exact Hlen|]. split; [exact HE|].
  destruct (detector_extreme_flags scenario_D 156 Hlen HE)
    as (current & lo & hi & Hhead & _ & _ & Hres & _ & Hmax & _).
  destruct (detect_signals_returns scenario_D 52 156) as [r Hr];
    [vm_compute; congruence | lia | lia |].
  exists r. split; [exact Hr|].
  destruct (Hres 52 r Hr) as [_ ->]. do 2 f_equal.
  apply Hmax. injection Hhead as <-.
  intros y Hy. apply list_elem_of_In in Hy.
  vm_compute in Hy.
  repeat (destruct Hy as [<-|Hy]; [reflexivity|]). destruct Hy.
Defined.
